(** * A shallow embedding of the motion-detector vision service

    The development follows [src/motion_detector/motion_detector.py]: the
    configuration entry points ([validate_config], [reconfigure],
    [new_service]) and the two image pipelines ([get_classifications],
    [get_detections]).

    Conventions of the embedding.
    - Protobuf numbers ([number_value], a double) and the Python floats
      computed from them are exact rationals ([Q]); [math.floor] is
      [Qfloor].  At the sensitivities evaluated below (0.875, 0.9375 and
      0.9) the double computation yields the same threshold as the rational
      one.
    - A grayscale [numpy] array is a list of rows of pixel intensities.
    - Exceptions are values of [error]; code that awaits the camera runs in
      a state-and-exception monad over the frames the cameras will deliver.
    - [cv2.absdiff], [cv2.erode] and [cv2.dilate] follow the OpenCV
      reference manual; [cv2.findContours] is an interface with the part of
      its contract that the service relies on. *)

From Stdlib Require Import ZArith QArith Qround Lia List.
From stdpp Require Import base option list strings gmap.

Local Open Scope string_scope.
Local Open Scope Z_scope.

(** ** Exceptions *)

Inductive error : Type :=
| Exception (msg : string)      (* [raise Exception(...)] *)
| KeyError (key : string)       (* a missing key of a Python mapping *)
| ValueError                    (* [min()] / [max()] of an empty sequence *)
| Cv2Error (what : string)      (* [cv2.error] raised inside OpenCV *)
| CameraError.                  (* the camera delivered no frame *)

Inductive result (A : Type) : Type :=
| Ok (a : A)
| Raise (e : error).
Arguments Ok {A} a.
Arguments Raise {A} e.

Definition rbind {A B} (r : result A) (f : A -> result B) : result B :=
  match r with Ok a => f a | Raise e => Raise e end.

(** ** Rational helpers *)

Definition Qltb (x y : Q) : bool := negb (Qle_bool y x).

(** ** Configuration: protobuf [Struct] attributes *)

Inductive Value : Type :=
| NullValue
| NumberValue (q : Q)
| StringValue (s : string)
| BoolValue (b : bool).

(** [v.number_value] and [v.string_value]: the payload when the value is of
    that kind, the protobuf default otherwise. *)
Definition number_value (v : Value) : Q :=
  match v with NumberValue q => q | _ => 0%Q end.

Definition string_value (v : Value) : string :=
  match v with StringValue s => s | _ => "" end.

Record ServiceConfig : Type := {
  cfg_name : string;
  attributes : gmap string Value
}.

(** [config.attributes.fields[key]]: a protobuf map of messages answers a
    missing key with the default message. *)
Definition fields (config : ServiceConfig) (key : string) : Value :=
  default NullValue (attributes config !! key).

(** ** The service object *)

(** A camera resource is referred to by a handle; [dependencies] maps the
    resource name of a camera to its handle. *)
Definition Camera : Type := positive.

Record MotionDetector : Type := {
  name : string;
  cam_name : string;
  camera : Camera;
  sensitivity : Q;
  min_box_size : Q
}.

(** [validate_config]: lines 54-65. *)
Definition validate_config (config : ServiceConfig) : result (list string) :=
  let source_cam := string_value (fields config "cam_name") in
  let min_boxsize := number_value (fields config "min_box_size") in
  if Qltb min_boxsize 0 then
    Raise (Exception "Minimum bounding box size should be a positive integer")
  else
    let sens := number_value (fields config "sensitivity") in
    if Qltb sens 0 || Qltb 1 sens then
      Raise (Exception "Sensitivity should be a number between 0 and 1")
    else Ok [source_cam].

(** [reconfigure]: lines 69-78.  Every attribute except [name] is assigned,
    in the order of the source; the lookup of the camera raises [KeyError]
    when the dependency is missing. *)
Definition reconfigure (self : MotionDetector) (config : ServiceConfig)
    (dependencies : gmap string Camera) : result MotionDetector :=
  let cam_name' := string_value (fields config "cam_name") in
  match dependencies !! cam_name' with
  | None => Raise (KeyError cam_name')
  | Some cam =>
      let sens := number_value (fields config "sensitivity") in
      let sens := if Qeq_bool sens 0 then (9 # 10)%Q else sens in
      Ok {| name := name self;
            cam_name := cam_name';
            camera := cam;
            sensitivity := sens;
            min_box_size := number_value (fields config "min_box_size") |}
  end.

(** [cls(config.name)]: a fresh instance has its name only; the other
    attributes are unset until [reconfigure] assigns them all, so any
    placeholder serves. *)
Definition init (n : string) : MotionDetector :=
  {| name := n; cam_name := ""; camera := 1%positive;
     sensitivity := 0%Q; min_box_size := 0%Q |}.

(** [new_service]: lines 45-51. *)
Definition new_service (config : ServiceConfig)
    (dependencies : gmap string Camera) : result MotionDetector :=
  reconfigure (init (cfg_name config)) config dependencies.

(** ** Frames and images *)

(** A grayscale array ([dtype=uint8], shape [(height, width)]): rows of
    pixel intensities. *)
Definition GrayFrame : Type := list (list Z).

Definition height (a : GrayFrame) : nat := length a.
Definition width (a : GrayFrame) : nat := length (hd [] a).

(** [a.shape] *)
Definition shape (a : GrayFrame) : nat * nat := (height a, width a).

(** A camera image is observed by the service in two ways only: through
    [cv2.cvtColor(np.array(img), cv2.COLOR_BGR2GRAY)] and through
    [img.size].  It is represented by its grayscale conversion, from which
    the size [(width, height)] is read off. *)
Record Image : Type := { luminance : GrayFrame }.

Definition size (img : Image) : Z * Z :=
  (Z.of_nat (width (luminance img)), Z.of_nat (height (luminance img))).

(** [cv2.cvtColor] asserts that its source is not empty. *)
Definition cvtColor_BGR2GRAY (img : Image) : result GrayFrame :=
  let a := luminance img in
  if Nat.eqb (height a) 0 || Nat.eqb (width a) 0
  then Raise (Cv2Error "cvtColor: (-215:Assertion failed) !_src.empty()")
  else Ok a.

(** ** Awaiting the camera *)

(** The frames each camera will deliver, oldest first. *)
Definition World : Type := gmap Camera (list Image).

Definition Async (A : Type) : Type := World -> result A * World.

Definition aret {A} (a : A) : Async A := fun w => (Ok a, w).

Definition abind {A B} (m : Async A) (f : A -> Async B) : Async B :=
  fun w => match m w with
           | (Ok a, w') => f a w'
           | (Raise e, w') => (Raise e, w')
           end.

Definition lift {A} (r : result A) : Async A := fun w => (r, w).

Notation "'await' x <- m ;; k" := (abind m (fun x => k))
  (at level 100, x name, m at next level, right associativity, only parsing).
Notation "'try' x <- r ;; k" := (abind (lift r) (fun x => k))
  (at level 100, x name, r at next level, right associativity, only parsing).

(** [await camera.get_image()] *)
Definition get_image (cam : Camera) : Async Image :=
  fun w => match w !! cam with
           | Some (img :: rest) => (Ok img, <[cam := rest]> w)
           | _ => (Raise CameraError, w)
           end.

(** ** OpenCV and numpy primitives *)

(** [cv2.absdiff(src1, src2)] on [uint8] arrays.  Arrays of the same shape
    are subtracted element by element.  When the shapes differ OpenCV looks
    for a scalar operand: a [1 x 1] array passes for one but is then
    rejected because a scalar has to be of type double; any other pair is
    rejected for its sizes.  Both ways [cv2.error] is raised. *)
Definition looks_scalar (a : GrayFrame) : bool :=
  match a with
  | [[_]] => true
  | _ => false
  end.

Definition absdiff (src1 src2 : GrayFrame) : result GrayFrame :=
  if decide (shape src1 = shape src2) then
    Ok (zip_with (zip_with (fun a b => Z.abs (a - b))) src1 src2)
  else if looks_scalar src1 || looks_scalar src2 then
    Raise (Cv2Error "arithm_op: (-215:Assertion failed) type2 == CV_64F")
  else
    Raise (Cv2Error "arithm_op: (-209:Sizes of input arguments do not match)").

(** [a[cond(a)] = v]: boolean-mask assignment. *)
Definition assign_where (cond : Z -> bool) (v : Z) (a : GrayFrame) : GrayFrame :=
  map (map (fun d => if cond d then v else d)) a.

(** [np.sum(a)]; the accumulator is 64 bits wide, far above [255] times
    the size of any array that fits in memory. *)
Definition np_sum (a : GrayFrame) : Z :=
  foldr Z.add 0 (map (foldr Z.add 0) a).

(** [math.floor((1 - sensitivity) * 255)] *)
Definition threshold (sens : Q) : Z := Qfloor ((1 - sens) * 255)%Q.

(** Lines 105-107 (with [active = 1]) and 146-148 (with [active = 255]). *)
Definition threshold_mask (k active : Z) (diff : GrayFrame) : GrayFrame :=
  let diff := assign_where (fun d => d <? k) 0 diff in
  assign_where (fun d => k <? d) active diff.

(** The effect of the two assignments on a single pixel. *)
Definition threshold_pixel (k active d : Z) : Z :=
  let d := if d <? k then 0 else d in
  if k <? d then active else d.

(** ** Classification *)

Record Classification : Type := {
  class_name : string;
  confidence : Q
}.

(** Line 110: a true division, rendered as the reduced fraction. *)
Definition conf_of (diff : GrayFrame) (sz : Z * Z) : Q :=
  Qred (inject_Z (np_sum diff) / inject_Z (fst sz * snd sz))%Q.

(** [get_classifications]: lines 88-113. *)
Definition get_classifications (self : MotionDetector)
    (image : option Image) (count : Z) : Async (list Classification) :=
  await img1 <- get_image (camera self) ;;
  try gray1 <- cvtColor_BGR2GRAY img1 ;;
  await img2 <- get_image (camera self) ;;
  try gray2 <- cvtColor_BGR2GRAY img2 ;;
  try diff <- absdiff gray2 gray1 ;;
  let k := threshold (sensitivity self) in
  let diff := threshold_mask k 1 diff in
  let conf := conf_of diff (size img1) in
  aret [ {| class_name := "motion"; confidence := conf |} ].

(** [get_classifications_from_camera]: lines 115-126. *)
Definition get_classifications_from_camera (self : MotionDetector)
    (camera_name : string) (count : Z) : Async (list Classification) :=
  if decide (camera_name = cam_name self) then
    await image <- get_image (camera self) ;;
    get_classifications self (Some image) count
  else
    lift (Raise (Exception "Camera name passed to method is not the configured source_cam")).

(** ** Morphology *)

(** [np.zeros((rows, cols), np.uint8)] *)
Definition np_zeros (rows cols : nat) : GrayFrame := replicate rows (replicate cols 0).

(** [np.ones((rows, cols), np.uint8)] *)
Definition np_ones (rows cols : nat) : GrayFrame := replicate rows (replicate cols 1).

(** [a[y][x]] for a position that may lie outside the array. *)
Definition pixel_at (a : GrayFrame) (y x : Z) : option Z :=
  if (0 <=? y) && (0 <=? x)
  then match a !! Z.to_nat y with
       | Some row => row !! Z.to_nat x
       | None => None
       end
  else None.

(** The offsets [(dy, dx)] of the non-zero elements of a structuring
    element from its anchor; the default anchor is the centre. *)
Definition kernel_offsets (kernel : GrayFrame) : list (Z * Z) :=
  let ay := Z.of_nat (height kernel / 2) in
  let ax := Z.of_nat (width kernel / 2) in
  concat (imap (fun i row =>
    concat (imap (fun j e =>
      if e =? 0 then [] else [(Z.of_nat i - ay, Z.of_nat j - ax)]) row)) kernel).

(** The pixels under the structuring element placed at [(y, x)].  With the
    default border ([BORDER_CONSTANT] and [morphologyDefaultBorderValue])
    positions outside the array never decide a minimum or a maximum, so
    they are left out. *)
Definition neighbourhood (a : GrayFrame) (offs : list (Z * Z)) (y x : Z) : list Z :=
  omap (fun d => pixel_at a (y + fst d) (x + snd d)) offs.

Definition morph (op : Z -> Z -> Z) (unit : Z) (src kernel : GrayFrame) : GrayFrame :=
  let offs := kernel_offsets kernel in
  imap (fun y row =>
    imap (fun x _ =>
      foldr op unit (neighbourhood src offs (Z.of_nat y) (Z.of_nat x))) row) src.

(** [cv2.erode(src, kernel)]: the minimum under the structuring element. *)
Definition erode (src kernel : GrayFrame) : GrayFrame := morph Z.min 255 src kernel.

(** [cv2.dilate(src, kernel)]: the maximum under the structuring element. *)
Definition dilate (src kernel : GrayFrame) : GrayFrame := morph Z.max 0 src kernel.

(** ** Contours *)

(** A contour point [pt] is [[[x, y]]]: [pt[0][0]] is [x], [pt[0][1]] is [y]. *)
Definition Point : Type := Z * Z.
Definition Contour : Type := list Point.

Inductive RetrievalMode : Type := RETR_EXTERNAL | RETR_LIST | RETR_CCOMP | RETR_TREE.
Inductive ApproximationMode : Type := CHAIN_APPROX_NONE | CHAIN_APPROX_SIMPLE.

(** [cv2.findContours] is used through the part of its contract the
    service depends on: a contour is a non-empty sequence of border points,
    and border points are non-zero pixels of the image. *)
Class ContourFinder : Type := {
  findContours : GrayFrame -> RetrievalMode -> ApproximationMode -> list Contour;
  contour_nonempty :
    forall img mode method c,
      In c (findContours img mode method) -> c <> [];
  contour_on_foreground :
    forall img mode method c x y,
      In c (findContours img mode method) -> In (x, y) c ->
      exists v, pixel_at img y x = Some v /\ v <> 0
}.

(** ** Detection *)

Record Detection : Type := {
  det_confidence : Q;
  det_class_name : string;
  x_min : Z;
  y_min : Z;
  x_max : Z;
  y_max : Z
}.

(** Arithmetic on [np.int32] scalars wraps around. *)
Definition int32 (z : Z) : Z := (z + 2 ^ 31) mod 2 ^ 32 - 2 ^ 31.

(** Python's [min] and [max] of a list. *)
Definition py_min (l : list Z) : result Z :=
  match l with
  | [] => Raise ValueError
  | x :: l' => Ok (foldl Z.min x l')
  end.

Definition py_max (l : list Z) : result Z :=
  match l with
  | [] => Raise ValueError
  | x :: l' => Ok (foldl Z.max x l')
  end.

(** The quantity compared with [min_box_size] on line 168. *)
Definition box_product (xmin xmax ymin ymax : Z) : Z :=
  int32 (int32 (ymax - ymin) * int32 (xmax - xmin)).

(** Lines 164-166: the extremal coordinates of a contour, in the order
    [xmin, xmax, ymin, ymax] of the tuple assignment. *)
Definition bounding_box (c : Contour) : result (Z * Z * Z * Z) :=
  let xs := map fst c in
  let ys := map snd c in
  rbind (py_min xs) (fun xmin =>
  rbind (py_max xs) (fun xmax =>
  rbind (py_min ys) (fun ymin =>
  rbind (py_max ys) (fun ymax => Ok (xmin, xmax, ymin, ymax))))).

(** The dictionary appended on lines 169-170. *)
Definition motion_box (xmin xmax ymin ymax : Z) : Detection :=
  {| det_confidence := (1 # 2)%Q; det_class_name := "motion";
     x_min := xmin; y_min := ymin; x_max := xmax; y_max := ymax |}.

(** Lines 162-170: the loop over the contours, appending to [detections]. *)
Fixpoint boxes_of_contours (min_box_size : Q) (contours : list Contour)
    (detections : list Detection) : result (list Detection) :=
  match contours with
  | [] => Ok detections
  | c :: rest =>
      rbind (bounding_box c) (fun '(xmin, xmax, ymin, ymax) =>
      let detections :=
        if Qltb min_box_size (inject_Z (box_product xmin xmax ymin ymax))
        then (detections ++ [motion_box xmin xmax ymin ymax])%list
        else detections in
      boxes_of_contours min_box_size rest detections)
  end.

(** Lines 146-156: threshold and the two morphological passes. *)
Definition denoise (k : Z) (diff : GrayFrame) : GrayFrame :=
  let diff := threshold_mask k 255 diff in
  let kernel := np_ones 3 3 in
  let kernel2 := np_ones 15 15 in
  let img := erode diff kernel in
  let img2 := dilate img kernel in
  let img3 := dilate img2 kernel2 in
  erode img3 kernel2.

(** [get_detections]: lines 129-172. *)
Definition get_detections `{ContourFinder} (self : MotionDetector)
    (image : option Image) : Async (list Detection) :=
  let detections := [] in
  await input1 <- get_image (camera self) ;;
  try gray1 <- cvtColor_BGR2GRAY input1 ;;
  await input2 <- get_image (camera self) ;;
  try gray2 <- cvtColor_BGR2GRAY input2 ;;
  try diff <- absdiff gray2 gray1 ;;
  let k := threshold (sensitivity self) in
  let imgOut := denoise k diff in
  let contours := findContours imgOut RETR_EXTERNAL CHAIN_APPROX_NONE in
  lift (boxes_of_contours (min_box_size self) contours detections).

(** [get_detections_from_camera]: lines 174-184. *)
Definition get_detections_from_camera `{ContourFinder} (self : MotionDetector)
    (camera_name : string) : Async (list Detection) :=
  if decide (camera_name = cam_name self) then get_detections self None
  else
    lift (Raise (Exception "Camera name passed to method is not the configured source_cam")).

(** ** The host's configuration step *)

(** Modelled from the spec: the registration of the service with its host
    is not part of the sources.  The spec leaves validation to the host,
    which calls the validator before it constructs the service, so that
    only a validated configuration reaches [new_service]. *)
Definition configure (config : ServiceConfig) (dependencies : gmap string Camera)
    : result MotionDetector :=
  rbind (validate_config config) (fun _ => new_service config dependencies).

(** ** The two computations as functions of the captured frames *)

(** What [get_classifications] computes once the two frames are in hand. *)
Definition classify (sens : Q) (img1 img2 : Image) : result (list Classification) :=
  rbind (cvtColor_BGR2GRAY img1) (fun gray1 =>
  rbind (cvtColor_BGR2GRAY img2) (fun gray2 =>
  rbind (absdiff gray2 gray1) (fun diff =>
  let diff := threshold_mask (threshold sens) 1 diff in
  Ok [ {| class_name := "motion"; confidence := conf_of diff (size img1) |} ]))).

(** What [get_detections] computes once the two frames are in hand. *)
Definition detect `{ContourFinder} (sens min_box : Q) (img1 img2 : Image)
    : result (list Detection) :=
  rbind (cvtColor_BGR2GRAY img1) (fun gray1 =>
  rbind (cvtColor_BGR2GRAY img2) (fun gray2 =>
  rbind (absdiff gray2 gray1) (fun diff =>
  let imgOut := denoise (threshold sens) diff in
  boxes_of_contours min_box
    (findContours imgOut RETR_EXTERNAL CHAIN_APPROX_NONE) []))).

(** ** A reference contour finder *)

(** The 8-connected components of the non-zero pixels, each listed with all
    of its pixels, in raster order of their first pixel.  It meets the
    contract of [ContourFinder] and serves to run the detection pipeline on
    concrete frames. *)
Definition foreground (a : GrayFrame) : list Point :=
  concat (imap (fun y row =>
    concat (imap (fun x v =>
      if v =? 0 then [] else [(Z.of_nat x, Z.of_nat y)]) row)) a).

Definition adjacent (p q : Point) : bool :=
  (Z.abs (fst p - fst q) <=? 1) && (Z.abs (snd p - snd q) <=? 1).

Fixpoint grow (fuel : nat) (comp rest : list Point) : list Point * list Point :=
  match fuel with
  | O => (comp, rest)
  | S fuel' =>
      match List.partition (fun q => existsb (adjacent q) comp) rest with
      | ([], _) => (comp, rest)
      | (near, far) => grow fuel' (comp ++ near)%list far
      end
  end.

Fixpoint components (fuel : nat) (pts : list Point) : list Contour :=
  match fuel, pts with
  | S fuel', p :: rest =>
      let cr := grow (length rest) [p] rest in
      fst cr :: components fuel' (snd cr)
  | _, _ => []
  end.

Definition component_contours (img : GrayFrame) (mode : RetrievalMode)
    (method : ApproximationMode) : list Contour :=
  let pts := foreground img in
  components (length pts) pts.

(** ** Predicates used in the statements *)

(** An array all of whose pixels are zero. *)
Definition blank (a : GrayFrame) : Prop := Forall (Forall (fun v => v = 0)) a.

(** An array whose rows all have the width of the first. *)
Definition rectangular (a : GrayFrame) : Prop :=
  Forall (fun row => length row = width a) a.

(** No pixel of the difference sits exactly at the threshold. *)
Definition off_threshold (k : Z) (diff : GrayFrame) : Prop :=
  Forall (Forall (fun d => d <> k)) diff.

(** ** Fixtures *)

(** The service of the test-suite ([getMD]), with chosen parameters, and a
    world in which its camera is about to deliver the given frames. *)
Definition getMD (sens min_box : Q) : MotionDetector :=
  {| name := "test"; cam_name := "test"; camera := 1%positive;
     sensitivity := sens; min_box_size := min_box |}.

Definition delivering (frames : list GrayFrame) : World :=
  {[ 1%positive := map Build_Image frames ]}.

(** A configuration with the three attributes the service reads, and the
    same configuration with one attribute replaced. *)
Definition config_of (cam : string) (sens min_box : Q) : ServiceConfig :=
  {| cfg_name := "test";
     attributes := {[ "cam_name" := StringValue cam;
                      "sensitivity" := NumberValue sens;
                      "min_box_size" := NumberValue min_box ]} |}.

Definition set_attribute (key : string) (v : Value) (config : ServiceConfig)
    : ServiceConfig :=
  {| cfg_name := cfg_name config;
     attributes := <[key := v]> (attributes config) |}.

(** A frame of [n x n] pixels, [v] inside the square [lo..hi] (both ends
    included, on both axes) and black elsewhere. *)
Definition blob_frame (n lo hi : nat) (v : Z) : GrayFrame :=
  let inside i := Nat.leb lo i && Nat.leb i hi in
  map (fun y => map (fun x => if inside y && inside x then v else 0) (seq 0 n))
      (seq 0 n).

(** ** Notions used in the further properties *)


(** An array of at most [h] rows, each of at most [w] pixels. *)
Definition fits (h w : nat) (a : GrayFrame) : Prop :=
  (length a <= h)%nat /\ Forall (fun row => (length row <= w)%nat) a.

(** An array of 8-bit values. *)
Definition uint8_frame (a : GrayFrame) : Prop :=
  Forall (Forall (fun v => 0 <= v <= 255)) a.

(** What one turn of the loop of lines 162-170 appends for a contour. *)
Definition box_if_kept (min_box : Q) (c : Contour) : option Detection :=
  match bounding_box c with
  | Ok (xmin, xmax, ymin, ymax) =>
      if Qltb min_box (inject_Z (box_product xmin xmax ymin ymax))
      then Some (motion_box xmin xmax ymin ymax)
      else None
  | Raise _ => None
  end.

(** * Properties *)

(** ** Comparisons of rationals *)

Lemma Qltb_lt x y : Qltb x y = true <-> (x < y)%Q.
Proof.
  unfold Qltb. rewrite negb_true_iff. split.
  - intros H. apply Qnot_le_lt. intros Hle.
    apply Qle_bool_iff in Hle. congruence.
  - intros H. destruct (Qle_bool y x) eqn:E; [|reflexivity].
    apply Qle_bool_iff in E. exfalso. exact (Qlt_not_le _ _ H E).
Qed.

(** ** Running the asynchronous methods *)

Section Running.
Context `{CF : ContourFinder}.
Variables (self : MotionDetector) (w : World).
Variables (img1 img2 : Image) (rest : list Image).
Hypothesis delivers : w !! camera self = Some (img1 :: img2 :: rest).

Lemma get_image_first :
  get_image (camera self) w = (Ok img1, <[camera self := img2 :: rest]> w).
Proof using delivers. unfold get_image. by rewrite delivers. Qed.

Lemma get_image_second :
  get_image (camera self) (<[camera self := img2 :: rest]> w)
  = (Ok img2, <[camera self := rest]> (<[camera self := img2 :: rest]> w)).
Proof. unfold get_image, World, Camera in *. by rewrite lookup_insert_eq. Qed.

(** With two frames waiting, [get_classifications] returns what
    [classify] computes from them. *)
Lemma get_classifications_run image count :
  fst (get_classifications self image count w)
  = classify (sensitivity self) img1 img2.
Proof using delivers.
  unfold get_classifications, classify, abind, lift, aret.
  rewrite get_image_first.
  destruct (cvtColor_BGR2GRAY img1) as [gray1|e]; [|done]. simpl.
  rewrite get_image_second.
  destruct (cvtColor_BGR2GRAY img2) as [gray2|e]; [|done]. simpl.
  destruct (absdiff gray2 gray1) as [diff|e]; done.
Qed.

Lemma get_detections_run image :
  fst (get_detections self image w)
  = detect (sensitivity self) (min_box_size self) img1 img2.
Proof using delivers.
  unfold get_detections, detect, abind, lift.
  rewrite get_image_first.
  destruct (cvtColor_BGR2GRAY img1) as [gray1|e]; [|done]. simpl.
  rewrite get_image_second.
  destruct (cvtColor_BGR2GRAY img2) as [gray2|e]; [|done]. simpl.
  destruct (absdiff gray2 gray1) as [diff|e]; done.
Qed.
End Running.

(** ** Grayscale conversion *)

Lemma cvtColor_nonempty img :
  (0 < height (luminance img))%nat -> (0 < width (luminance img))%nat ->
  cvtColor_BGR2GRAY img = Ok (luminance img).
Proof.
  intros Hh Hw. unfold cvtColor_BGR2GRAY.
  destruct (Nat.eqb_spec (height (luminance img)) 0); [lia|].
  destruct (Nat.eqb_spec (width (luminance img)) 0); [lia|]. reflexivity.
Qed.

Lemma cvtColor_cases img :
  cvtColor_BGR2GRAY img = Ok (luminance img)
  \/ exists what, cvtColor_BGR2GRAY img = Raise (Cv2Error what).
Proof.
  unfold cvtColor_BGR2GRAY.
  destruct (_ || _); [right; eexists; reflexivity | left; reflexivity].
Qed.

(** ** The threshold *)

Lemma threshold_mask_pixelwise k active diff :
  threshold_mask k active diff = map (map (threshold_pixel k active)) diff.
Proof.
  unfold threshold_mask, assign_where. rewrite map_map.
  apply map_ext; intros row. rewrite map_map. reflexivity.
Qed.

(** What lines 105-107 do to one pixel: below [k] it becomes [0], above [k]
    it becomes [active], and at [k] it keeps its value [k]. *)
Lemma threshold_pixel_cases k active d :
  0 <= k ->
  threshold_pixel k active d
  = if d <? k then 0 else if d =? k then k else active.
Proof.
  intros Hk. unfold threshold_pixel.
  destruct (d <? k) eqn:E1.
  - destruct (k <? 0) eqn:E2; [lia | reflexivity].
  - destruct (k <? d) eqn:E2; destruct (d =? k) eqn:E3; lia.
Qed.

(** Away from [k] the mask is the binary one. *)
Lemma threshold_pixel_binary k d :
  0 <= k -> d <> k ->
  threshold_pixel k 1 d = if k <=? d then 1 else 0.
Proof.
  intros Hk Hd. rewrite threshold_pixel_cases by done.
  destruct (d <? k) eqn:E1, (d =? k) eqn:E2, (k <=? d) eqn:E3; lia.
Qed.

Lemma threshold_nonneg sens : (sens <= 1)%Q -> 0 <= threshold sens.
Proof.
  intros Hs. unfold threshold.
  change 0 with (Qfloor 0). apply Qfloor_resp_le.
  apply Qmult_le_0_compat; [|discriminate].
  unfold Qminus. rewrite <- Qle_minus_iff. exact Hs.
Qed.

Lemma threshold_antitone s1 s2 :
  (s1 <= s2)%Q -> threshold s2 <= threshold s1.
Proof.
  intros Hs. unfold threshold. apply Qfloor_resp_le.
  apply Qmult_le_compat_r; [|discriminate].
  unfold Qminus. apply Qplus_le_r. by apply Qopp_le_compat.
Qed.

(** C1 (the code departs from the claim).  At sensitivity 0.875 the
    threshold is [k = 31]; comparing a black [2 x 2] frame with the frame
    [[31, 31], [0, 200]] gives the difference [[31, 31], [0, 200]], and the
    thresholded buffer is [[31, 31], [0, 1]]: the two pixels whose
    difference is exactly [k] keep the value 31, which is neither 1 (as the
    claim has it for a difference [>= k]) nor 0.  In general a pixel at the
    threshold keeps its value. *)
Theorem C1_pixel_at_threshold_keeps_value :
  threshold (7 # 8) = 31 /\
  absdiff [[31; 31]; [0; 200]] [[0; 0]; [0; 0]] = Ok [[31; 31]; [0; 200]] /\
  threshold_mask 31 1 [[31; 31]; [0; 200]] = [[31; 31]; [0; 1]] /\
  (forall k active, threshold_pixel k active k = k).
Proof.
  repeat split; try reflexivity.
  intros k active. unfold threshold_pixel.
  rewrite !Z.ltb_irrefl. reflexivity.
Qed.

(** ** Confidence *)

(** C2 (the code departs from the claim).  With sensitivity 0.875
    ([k = 31]) and the frames of C1 the buffer that is summed is
    [[31, 31], [0, 1]], so the confidence is [63 / 4 = 15.75], which is
    greater than 1. *)
Theorem C2_confidence_above_one :
  fst (get_classifications (getMD (7 # 8) 0) None 1
         (delivering [ [[0; 0]; [0; 0]]; [[31; 31]; [0; 200]] ]))
  = Ok [ {| class_name := "motion"; confidence := 63 # 4 |} ]
  /\ ~ (63 # 4 <= 1)%Q.
Proof.
  split; [vm_compute; reflexivity|].
  intros H. apply Qle_bool_iff in H. discriminate H.
Qed.

(** C3 (the code departs from the claim).  For the frames of C1 the
    confidence is [15.75] at sensitivity 0.875 ([k = 31]) and [0.75] at the
    higher sensitivity 0.9375 ([k = 15]): raising the sensitivity lowered
    the confidence. *)
Theorem C3_confidence_not_monotone :
  let w := delivering [ [[0; 0]; [0; 0]]; [[31; 31]; [0; 200]] ] in
  (7 # 8 <= 15 # 16)%Q /\
  fst (get_classifications (getMD (7 # 8) 0) None 1 w)
  = Ok [ {| class_name := "motion"; confidence := 63 # 4 |} ] /\
  fst (get_classifications (getMD (15 # 16) 0) None 1 w)
  = Ok [ {| class_name := "motion"; confidence := 3 # 4 |} ] /\
  (3 # 4 < 63 # 4)%Q.
Proof.
  repeat split; try (vm_compute; reflexivity).
  intros H; discriminate H.
Qed.

(** ** Away from the threshold

    The pixels whose difference is exactly [k] are the only obstacle: for
    frames none of whose differences equals the threshold the confidence
    lies in [[0, 1]] and grows with the sensitivity. *)

Lemma np_sum_pointwise (f g : Z -> Z) a :
  Forall (Forall (fun d => f d <= g d)) a ->
  np_sum (map (map f) a) <= np_sum (map (map g) a).
Proof.
  unfold np_sum. induction 1 as [|row a Hrow _ IH]; simpl; [lia|].
  assert (foldr Z.add 0 (map f row) <= foldr Z.add 0 (map g row))
    by (induction Hrow; simpl; lia).
  lia.
Qed.

Lemma np_sum_ones (a : GrayFrame) (w : nat) :
  Forall (fun row => (length row <= w)%nat) a ->
  np_sum (map (map (fun _ => 1)) a) <= Z.of_nat (length a) * Z.of_nat w.
Proof.
  unfold np_sum. induction 1 as [|row a Hrow _ IH]; simpl length; simpl; [lia|].
  assert (foldr Z.add 0 (map (fun _ : Z => 1) row) = Z.of_nat (length row))
    as -> by (clear; induction row; simpl length; simpl; lia).
  nia.
Qed.

Lemma np_sum_zeros (a : GrayFrame) : np_sum (map (map (fun _ => 0)) a) = 0.
Proof.
  unfold np_sum. induction a as [|row a IH]; simpl; [reflexivity|].
  rewrite IH. clear. induction row; simpl; lia.
Qed.

Lemma zip_rows_width (f : Z -> Z -> Z) src1 src2 (w : nat) :
  Forall (fun row => length row = w) src2 ->
  Forall (fun row => (length row <= w)%nat) (zip_with (zip_with f) src1 src2).
Proof.
  intros H2. revert src1. induction H2 as [|row2 src2 Hrow _ IH]; intros [|row1 src1];
    simpl; constructor.
  - rewrite length_zip_with. lia.
  - apply IH.
Qed.

Lemma zip_rows_nonneg src1 src2 :
  Forall (Forall (fun d => 0 <= d))
    (zip_with (zip_with (fun a b => Z.abs (a - b))) src1 src2).
Proof.
  revert src2. induction src1 as [|row1 src1 IH]; intros [|row2 src2];
    simpl; constructor; [|apply IH].
  clear. revert row2. induction row1 as [|a row1 IH]; intros [|b row2];
    simpl; constructor; [lia | apply IH].
Qed.

Lemma conf_of_unit mask (sz : Z * Z) :
  0 < fst sz * snd sz -> 0 <= np_sum mask <= fst sz * snd sz ->
  (0 <= conf_of mask sz <= 1)%Q.
Proof.
  intros Hn [Hlo Hhi]. unfold conf_of. rewrite Qred_correct.
  assert (0 < inject_Z (fst sz * snd sz))%Q as Hpos
    by (change 0%Q with (inject_Z 0); by rewrite <- Zlt_Qlt).
  split.
  - apply Qle_shift_div_l; [exact Hpos|]. rewrite Qmult_0_l.
    change 0%Q with (inject_Z 0). by rewrite <- Zle_Qle.
  - apply Qle_shift_div_r; [exact Hpos|]. rewrite Qmult_1_l.
    by rewrite <- Zle_Qle.
Qed.

Lemma conf_of_mono mask1 mask2 (sz : Z * Z) :
  0 < fst sz * snd sz -> np_sum mask1 <= np_sum mask2 ->
  (conf_of mask1 sz <= conf_of mask2 sz)%Q.
Proof.
  intros Hn Hle. unfold conf_of. rewrite !Qred_correct.
  unfold Qdiv. apply Qmult_le_compat_r; [by rewrite <- Zle_Qle|].
  apply Qinv_le_0_compat. change 0%Q with (inject_Z 0). rewrite <- Zle_Qle. lia.
Qed.

Section OffThreshold.
Variables (img1 img2 : Image) (diff : GrayFrame).
Hypothesis nonempty_h : (0 < height (luminance img1))%nat.
Hypothesis nonempty_w : (0 < width (luminance img1))%nat.
Hypothesis rect1 : rectangular (luminance img1).
Hypothesis same_shape : shape (luminance img2) = shape (luminance img1).
Hypothesis difference : absdiff (luminance img2) (luminance img1) = Ok diff.

Lemma difference_nonneg : Forall (Forall (fun d => 0 <= d)) diff.
Proof using All.
  revert difference. unfold absdiff. rewrite decide_True by exact same_shape.
  intros [= <-]. apply zip_rows_nonneg.
Qed.

Lemma difference_fits :
  (length diff <= height (luminance img1))%nat
  /\ Forall (fun row => (length row <= width (luminance img1))%nat) diff.
Proof using All.
  revert difference. unfold absdiff. rewrite decide_True by exact same_shape.
  intros [= <-]. split.
  - rewrite length_zip_with. unfold height. lia.
  - apply zip_rows_width. exact rect1.
Qed.

Lemma size_positive : 0 < fst (size img1) * snd (size img1).
Proof using All. unfold size. simpl. nia. Qed.

Lemma classify_runs sens :
  classify sens img1 img2
  = Ok [ {| class_name := "motion";
            confidence := conf_of (threshold_mask (threshold sens) 1 diff) (size img1) |} ].
Proof using All.
  unfold classify. rewrite (cvtColor_nonempty img1) by done.
  rewrite (cvtColor_nonempty img2)
    by (injection same_shape as Hh Hw; rewrite ?Hh, ?Hw; done).
  simpl. rewrite difference. reflexivity.
Qed.

Lemma mask_sum_unit k :
  0 <= k -> off_threshold k diff ->
  0 <= np_sum (threshold_mask k 1 diff) <= fst (size img1) * snd (size img1).
Proof using All.
  intros Hk Hoff. rewrite threshold_mask_pixelwise.
  pose proof difference_nonneg as Hnn. destruct difference_fits as [Hrows Hcols].
  assert (Forall (Forall (fun d => 0 <= threshold_pixel k 1 d <= 1)) diff) as Hbin.
  { apply Forall_forall. intros row Hrow. apply Forall_forall. intros d Hd.
    rewrite threshold_pixel_binary; [destruct (k <=? d); lia | exact Hk |].
    exact (proj1 (Forall_forall _ _) (proj1 (Forall_forall _ _) Hoff row Hrow) d Hd). }
  split.
  - rewrite <- (np_sum_zeros diff). apply np_sum_pointwise.
    eapply Forall_impl; [exact Hbin|]. intros row Hrow.
    eapply Forall_impl; [exact Hrow|]. simpl. lia.
  - etransitivity.
    + apply (np_sum_pointwise _ (fun _ => 1)).
      eapply Forall_impl; [exact Hbin|]. intros row Hrow.
      eapply Forall_impl; [exact Hrow|]. simpl. lia.
    + etransitivity; [apply (np_sum_ones _ _ Hcols)|].
      unfold size. simpl. nia.
Qed.

(** The confidence is within [[0, 1]] when no difference is at the
    threshold. *)
Lemma confidence_unit_off_threshold sens :
  (sens <= 1)%Q -> off_threshold (threshold sens) diff ->
  exists conf,
    classify sens img1 img2 = Ok [ {| class_name := "motion"; confidence := conf |} ]
    /\ (0 <= conf <= 1)%Q.
Proof using All.
  intros Hs Hoff. eexists. split; [apply classify_runs|].
  apply conf_of_unit; [exact size_positive|].
  apply mask_sum_unit; [by apply threshold_nonneg | exact Hoff].
Qed.

(** The confidence does not decrease with the sensitivity when no
    difference is at either threshold. *)
Lemma confidence_monotone_off_threshold s1 s2 :
  (s1 <= s2)%Q -> (s2 <= 1)%Q ->
  off_threshold (threshold s1) diff -> off_threshold (threshold s2) diff ->
  exists conf1 conf2,
    classify s1 img1 img2 = Ok [ {| class_name := "motion"; confidence := conf1 |} ]
    /\ classify s2 img1 img2 = Ok [ {| class_name := "motion"; confidence := conf2 |} ]
    /\ (conf1 <= conf2)%Q.
Proof using All.
  intros H12 H2 Hoff1 Hoff2. do 2 eexists.
  split; [apply classify_runs|]. split; [apply classify_runs|].
  apply conf_of_mono; [exact size_positive|].
  pose proof (threshold_antitone _ _ H12) as Hk.
  pose proof (threshold_nonneg _ H2) as Hk2.
  rewrite !threshold_mask_pixelwise. apply np_sum_pointwise.
  apply Forall_forall. intros row Hrow. apply Forall_forall. intros d Hd.
  pose proof (proj1 (Forall_forall _ _) (proj1 (Forall_forall _ _) Hoff1 row Hrow) d Hd) as Hd1.
  pose proof (proj1 (Forall_forall _ _) (proj1 (Forall_forall _ _) Hoff2 row Hrow) d Hd) as Hd2.
  simpl in Hd1, Hd2.
  rewrite !threshold_pixel_binary by lia.
  destruct (Z.leb_spec (threshold s1) d), (Z.leb_spec (threshold s2) d); lia.
Qed.
End OffThreshold.

(** ** The reference contour finder meets the contract *)

Lemma pixel_at_nat a (y x : nat) row :
  a !! y = Some row -> pixel_at a (Z.of_nat y) (Z.of_nat x) = row !! x.
Proof.
  intros Hrow. unfold pixel_at. rewrite !Nat2Z.id, Hrow.
  rewrite (proj2 (Z.leb_le 0 (Z.of_nat y))) by lia.
  rewrite (proj2 (Z.leb_le 0 (Z.of_nat x))) by lia. reflexivity.
Qed.

Lemma foreground_pixel a x y :
  In (x, y) (foreground a) -> exists v, pixel_at a y x = Some v /\ v <> 0.
Proof.
  unfold foreground. rewrite in_concat. intros (pts & Hpts & Hin).
  apply list_elem_of_In, elem_of_lookup_imap in Hpts as (i & row & -> & Hrow).
  rewrite in_concat in Hin. destruct Hin as (pt & Hpt & Hin).
  apply list_elem_of_In, elem_of_lookup_imap in Hpt as (j & v & -> & Hv).
  destruct (Z.eqb_spec v 0) as [|Hnz]; [destruct Hin|].
  destruct Hin as [[= <- <-]|[]].
  exists v. split; [|exact Hnz].
  by rewrite (pixel_at_nat a i j row Hrow).
Qed.

Lemma grow_nonempty fuel comp rest :
  comp <> [] -> fst (grow fuel comp rest) <> [].
Proof.
  revert comp rest. induction fuel as [|fuel IH]; intros comp rest Hc; [exact Hc|].
  simpl. destruct (List.partition _ rest) as [[|q near] far]; [exact Hc|].
  apply IH. destruct comp; [done | discriminate].
Qed.

Lemma grow_sound fuel comp rest q :
  (In q (fst (grow fuel comp rest)) -> In q comp \/ In q rest) /\
  (In q (snd (grow fuel comp rest)) -> In q rest).
Proof.
  revert comp rest. induction fuel as [|fuel IH]; intros comp rest; [simpl; tauto|].
  simpl. destruct (List.partition _ rest) as [near far] eqn:E.
  pose proof (elements_in_partition _ _ E q) as Hpart.
  destruct near as [|p near]; [simpl; tauto|].
  destruct (IH (comp ++ p :: near)%list far) as [IH1 IH2].
  rewrite in_app_iff in IH1. tauto.
Qed.

Lemma components_sound fuel pts c :
  In c (components fuel pts) -> c <> [] /\ forall q, In q c -> In q pts.
Proof.
  revert pts. induction fuel as [|fuel IH]; intros pts; [done|].
  destruct pts as [|p rest]; [done|]. simpl. intros [<-|Hc].
  - split; [by apply grow_nonempty|].
    intros q Hq. apply grow_sound in Hq. simpl in Hq. tauto.
  - apply IH in Hc as [Hne Hin]. split; [exact Hne|].
    intros q Hq. right. eapply grow_sound, Hin, Hq.
Qed.

#[export] Instance reference_finder : ContourFinder := {|
  findContours := component_contours;
  contour_nonempty := fun img mode method c Hc =>
    proj1 (components_sound _ _ c Hc);
  contour_on_foreground := fun img mode method c x y Hc Hxy =>
    foreground_pixel img x y (proj2 (components_sound _ _ c Hc) (x, y) Hxy)
|}.

(** ** Identical frames *)

Lemma blank_pixel_at a y x v : blank a -> pixel_at a y x = Some v -> v = 0.
Proof.
  unfold pixel_at. intros Ha.
  destruct ((0 <=? y) && (0 <=? x)); [|done].
  destruct (a !! Z.to_nat y) as [row|] eqn:Hrow; [|done].
  intros Hv.
  pose proof (proj1 (Forall_lookup _ a) Ha _ _ Hrow) as Hr.
  exact (proj1 (Forall_lookup _ row) Hr _ _ Hv).
Qed.

Lemma absdiff_self_blank a :
  blank (zip_with (zip_with (fun p q => Z.abs (p - q))) a a).
Proof.
  induction a as [|row a IH]; simpl; constructor; [|exact IH].
  clear. induction row as [|p row IH]; simpl; constructor; [lia | exact IH].
Qed.

Lemma absdiff_self a :
  exists d, absdiff a a = Ok d /\ blank d.
Proof.
  unfold absdiff. rewrite decide_True by reflexivity.
  eexists; split; [reflexivity | apply absdiff_self_blank].
Qed.

Lemma threshold_mask_blank k active d :
  0 <= k -> blank d -> blank (threshold_mask k active d).
Proof.
  intros Hk Hd. rewrite threshold_mask_pixelwise.
  unfold blank in *. rewrite Forall_map.
  eapply Forall_impl; [exact Hd|]. intros row Hrow. rewrite Forall_map.
  eapply Forall_impl; [exact Hrow|]. intros v ->. simpl.
  rewrite threshold_pixel_cases by done.
  destruct (0 <? k) eqn:E1; [reflexivity|].
  destruct (0 =? k) eqn:E2; lia.
Qed.

Lemma np_sum_blank d : blank d -> np_sum d = 0.
Proof.
  unfold np_sum. induction 1 as [|row d Hrow _ IH]; simpl; [reflexivity|].
  rewrite IH. induction Hrow as [|v row -> _ IHr]; simpl; lia.
Qed.

Lemma conf_of_blank d sz : blank d -> conf_of d sz = 0%Q.
Proof.
  intros Hd. unfold conf_of. rewrite (np_sum_blank d Hd).
  change 0%Q with (Qred 0). apply Qred_complete.
  unfold Qdiv. apply Qmult_0_l.
Qed.

Lemma foldr_min_zeros l :
  Forall (fun v => v = 0) l -> l <> [] -> foldr Z.min 255 l = 0.
Proof.
  induction 1 as [|v l -> Hl IH]; [done|]. intros _. simpl.
  destruct l as [|u l]; [reflexivity|].
  rewrite IH by done. reflexivity.
Qed.

Lemma foldr_max_zeros l :
  Forall (fun v => v = 0) l -> foldr Z.max 0 l = 0.
Proof. induction 1 as [|v l -> _ IH]; simpl; [|rewrite IH]; reflexivity. Qed.

Lemma neighbourhood_blank a offs y x :
  blank a -> Forall (fun v => v = 0) (neighbourhood a offs y x).
Proof.
  intros Ha. apply Forall_forall. intros v Hv.
  unfold neighbourhood in Hv. apply list_elem_of_omap in Hv as (d & _ & Hd).
  eapply blank_pixel_at; eauto.
Qed.

Lemma neighbourhood_centre a offs (y x : nat) row v :
  (0, 0) ∈ offs -> a !! y = Some row -> row !! x = Some v ->
  neighbourhood a offs (Z.of_nat y) (Z.of_nat x) <> [].
Proof.
  intros Hc Hrow Hv Hnil.
  assert (v ∈ neighbourhood a offs (Z.of_nat y) (Z.of_nat x)) as Hin.
  { unfold neighbourhood. apply list_elem_of_omap. exists (0, 0). split; [done|].
    simpl. rewrite !Z.add_0_r. by rewrite (pixel_at_nat a y x row Hrow). }
  rewrite Hnil in Hin. by apply not_elem_of_nil in Hin.
Qed.

Lemma morph_blank op unit src kernel :
  (forall l, Forall (fun v => v = 0) l -> l <> [] -> foldr op unit l = 0) ->
  (0, 0) ∈ kernel_offsets kernel ->
  blank src -> blank (morph op unit src kernel).
Proof.
  intros Hop Hc Hsrc. unfold blank, morph.
  apply Forall_lookup. intros y row' Hy.
  apply list_lookup_imap_Some in Hy as (row & Hrow & ->).
  apply Forall_lookup. intros x v' Hx.
  apply list_lookup_imap_Some in Hx as (v & Hv & ->).
  apply Hop.
  - by apply neighbourhood_blank.
  - eapply neighbourhood_centre; eauto.
Qed.

Lemma centre_in_3x3 : (0, 0) ∈ kernel_offsets (np_ones 3 3).
Proof. apply (list_elem_of_lookup_2 _ 4%nat). reflexivity. Qed.

Lemma centre_in_15x15 : (0, 0) ∈ kernel_offsets (np_ones 15 15).
Proof. apply (list_elem_of_lookup_2 _ 112%nat). vm_compute. reflexivity. Qed.

Lemma erode_blank src kernel :
  (0, 0) ∈ kernel_offsets kernel -> blank src -> blank (erode src kernel).
Proof. apply morph_blank. exact foldr_min_zeros. Qed.

Lemma dilate_blank src kernel :
  (0, 0) ∈ kernel_offsets kernel -> blank src -> blank (dilate src kernel).
Proof. apply morph_blank. intros l Hl _. by apply foldr_max_zeros. Qed.

Lemma denoise_blank k diff : 0 <= k -> blank diff -> blank (denoise k diff).
Proof.
  intros Hk Hd. unfold denoise.
  apply erode_blank; [exact centre_in_15x15|].
  apply dilate_blank; [exact centre_in_15x15|].
  apply dilate_blank; [exact centre_in_3x3|].
  apply erode_blank; [exact centre_in_3x3|].
  by apply threshold_mask_blank.
Qed.

(** A blank image has no contours, whatever contour finder is used. *)
Lemma findContours_blank `{ContourFinder} img mode method :
  blank img -> findContours img mode method = [].
Proof.
  intros Himg.
  destruct (findContours img mode method) as [|c cs] eqn:E; [reflexivity|].
  exfalso.
  assert (In c (findContours img mode method)) as Hc by (rewrite E; left; reflexivity).
  pose proof (contour_nonempty _ _ _ _ Hc) as Hne.
  destruct c as [|[x y] c]; [done|].
  destruct (contour_on_foreground img mode method _ x y Hc) as (v & Hv & Hnz);
    [left; reflexivity|].
  apply Hnz. eapply blank_pixel_at; eauto.
Qed.

(** C4.  When the camera delivers the same non-empty frame twice and the
    sensitivity is at most 1, [get_classifications] returns the single
    classification "motion" with confidence exactly 0 and [get_detections]
    returns the empty list.  Neither the lower bound on the sensitivity nor
    the sign of [min_box_size] is needed. *)
Theorem C4_identical_frames_no_motion `{CF : ContourFinder}
    (self : MotionDetector) (image : option Image) (count : Z)
    (w : World) (img : Image) (rest : list Image) :
  w !! camera self = Some (img :: img :: rest) ->
  (0 < height (luminance img))%nat -> (0 < width (luminance img))%nat ->
  (sensitivity self <= 1)%Q ->
  fst (get_classifications self image count w)
  = Ok [ {| class_name := "motion"; confidence := 0 |} ]
  /\ fst (get_detections self image w) = Ok [].
Proof.
  intros Hw Hh Hwd Hs.
  pose proof (threshold_nonneg _ Hs) as Hk.
  rewrite (get_classifications_run self w img img rest Hw).
  rewrite (get_detections_run self w img img rest Hw).
  unfold classify, detect. rewrite cvtColor_nonempty by done. simpl.
  destruct (absdiff_self (luminance img)) as (d & -> & Hd). simpl.
  split.
  - rewrite conf_of_blank; [reflexivity|]. by apply threshold_mask_blank.
  - rewrite findContours_blank; [reflexivity|]. by apply denoise_blank.
Qed.

Lemma C4_identical_frames_no_motion_witness :
  fst (get_classifications (getMD (9 # 10) 1000) None 1
         (delivering [ [[7; 200]; [31; 0]]; [[7; 200]; [31; 0]] ]))
  = Ok [ {| class_name := "motion"; confidence := 0 |} ]
  /\ fst (@get_detections reference_finder (getMD (9 # 10) 1000) None
         (delivering [ [[7; 200]; [31; 0]]; [[7; 200]; [31; 0]] ]))
     = Ok [].
Proof.
  apply (@C4_identical_frames_no_motion reference_finder
           (getMD (9 # 10) 1000) None 1 _
           {| luminance := [[7; 200]; [31; 0]] |} []).
  - reflexivity.
  - vm_compute; lia.
  - vm_compute; lia.
  - unfold Qle; simpl; lia.
Defined.

(** ** Frames of different dimensions *)

Lemma size_shape img1 img2 :
  size img1 <> size img2 -> shape (luminance img2) <> shape (luminance img1).
Proof.
  unfold size, shape. intros Hne Heq. apply Hne.
  injection Heq as Hh Hw. by rewrite Hh, Hw.
Qed.

Lemma absdiff_mismatch src1 src2 :
  shape src1 <> shape src2 -> exists what, absdiff src1 src2 = Raise (Cv2Error what).
Proof.
  intros Hne. unfold absdiff. rewrite decide_False by exact Hne.
  destruct (looks_scalar src1 || looks_scalar src2); eexists; reflexivity.
Qed.

(** C5.  When the two frames the camera delivers differ in width or height,
    [get_classifications] and [get_detections] both raise [cv2.error] (the
    dimension-mismatch failure): no classification and no detection list is
    returned. *)
Theorem C5_dimension_mismatch_raises `{CF : ContourFinder}
    (self : MotionDetector) (image : option Image) (count : Z)
    (w : World) (img1 img2 : Image) (rest : list Image) :
  w !! camera self = Some (img1 :: img2 :: rest) ->
  size img1 <> size img2 ->
  (exists what,
     fst (get_classifications self image count w) = Raise (Cv2Error what))
  /\ (exists what, fst (get_detections self image w) = Raise (Cv2Error what)).
Proof.
  intros Hw Hsz.
  rewrite (get_classifications_run self w img1 img2 rest Hw).
  rewrite (get_detections_run self w img1 img2 rest Hw).
  unfold classify, detect.
  destruct (cvtColor_cases img1) as [-> | [what1 ->]]; simpl; [|eauto].
  destruct (cvtColor_cases img2) as [-> | [what2 ->]]; simpl; [|eauto].
  destruct (absdiff_mismatch _ _ (size_shape _ _ Hsz)) as [what ->]. simpl. eauto.
Qed.

Lemma C5_dimension_mismatch_raises_witness :
  (exists what,
     fst (get_classifications (getMD (9 # 10) 1000) None 1
            (delivering [np_zeros 10 10; np_zeros 20 10]))
     = Raise (Cv2Error what))
  /\ (exists what,
        fst (@get_detections reference_finder (getMD (9 # 10) 1000) None
               (delivering [np_zeros 10 10; np_zeros 20 10]))
        = Raise (Cv2Error what)).
Proof.
  apply (@C5_dimension_mismatch_raises reference_finder
           (getMD (9 # 10) 1000) None 1 _
           {| luminance := np_zeros 10 10 |} {| luminance := np_zeros 20 10 |} []).
  - reflexivity.
  - vm_compute. intros H. discriminate H.
Defined.

(** ** The area filter *)

Lemma foldl_min_le l x : foldl Z.min x l <= x.
Proof.
  revert x. induction l as [|y l IH]; intros x; simpl; [lia|].
  specialize (IH (Z.min x y)). lia.
Qed.

Lemma foldl_max_ge l x : x <= foldl Z.max x l.
Proof.
  revert x. induction l as [|y l IH]; intros x; simpl; [lia|].
  specialize (IH (Z.max x y)). lia.
Qed.

Lemma py_min_le_py_max l lo hi : py_min l = Ok lo -> py_max l = Ok hi -> lo <= hi.
Proof.
  destruct l as [|x l]; [done|]. simpl. intros [= <-] [= <-].
  pose proof (foldl_min_le l x). pose proof (foldl_max_ge l x). lia.
Qed.

Lemma int32_small z : - 2 ^ 31 <= z < 2 ^ 31 -> int32 z = z.
Proof. intros Hz. unfold int32. rewrite Z.mod_small; lia. Qed.

Lemma int32_range z : - 2 ^ 31 <= int32 z < 2 ^ 31.
Proof.
  unfold int32. pose proof (Z.mod_pos_bound (z + 2 ^ 31) (2 ^ 32)). lia.
Qed.

(** Within the range of [np.int32] the product is the mathematical one. *)
Lemma box_product_exact xmin xmax ymin ymax :
  xmin <= xmax -> ymin <= ymax ->
  (ymax - ymin) * (xmax - xmin) < 2 ^ 31 ->
  box_product xmin xmax ymin ymax = (ymax - ymin) * (xmax - xmin).
Proof.
  intros Hx Hy Hp. unfold box_product.
  destruct (Z.eq_dec (ymax - ymin) 0) as [->|Hdy]; [reflexivity|].
  destruct (Z.eq_dec (xmax - xmin) 0) as [->|Hdx].
  { rewrite (int32_small 0) by lia. rewrite !Z.mul_0_r. reflexivity. }
  rewrite (int32_small (ymax - ymin)) by nia.
  rewrite (int32_small (xmax - xmin)) by nia.
  apply int32_small. nia.
Qed.

(** It never exceeds the mathematical product. *)
Lemma box_product_le xmin xmax ymin ymax :
  xmin <= xmax -> ymin <= ymax ->
  box_product xmin xmax ymin ymax <= (ymax - ymin) * (xmax - xmin).
Proof.
  intros Hx Hy.
  destruct (Z_lt_le_dec ((ymax - ymin) * (xmax - xmin)) (2 ^ 31)) as [Hp|Hp].
  - rewrite box_product_exact by done. lia.
  - pose proof (int32_range (int32 (ymax - ymin) * int32 (xmax - xmin))).
    unfold box_product. lia.
Qed.

(** One turn of the loop, for a contour whose extremal coordinates are
    known. *)
Lemma boxes_of_contours_step min_box c rest acc xmin xmax ymin ymax :
  bounding_box c = Ok (xmin, xmax, ymin, ymax) ->
  boxes_of_contours min_box (c :: rest) acc
  = boxes_of_contours min_box rest
      (if Qltb min_box (inject_Z (box_product xmin xmax ymin ymax))
       then (acc ++ [motion_box xmin xmax ymin ymax])%list else acc).
Proof. intros Hbb. simpl. rewrite Hbb. reflexivity. Qed.

Lemma bounding_box_ordered c xmin xmax ymin ymax :
  bounding_box c = Ok (xmin, xmax, ymin, ymax) -> xmin <= xmax /\ ymin <= ymax.
Proof.
  unfold bounding_box.
  destruct (py_min (map fst c)) as [a|] eqn:E1; [|done]; simpl.
  destruct (py_max (map fst c)) as [b|] eqn:E2; [|done]; simpl.
  destruct (py_min (map snd c)) as [a'|] eqn:E3; [|done]; simpl.
  destruct (py_max (map snd c)) as [b'|] eqn:E4; [|done]; simpl.
  intros [= <- <- <- <-]. eauto using py_min_le_py_max.
Qed.

(** C6.  The area filter is strict.  For a contour with extremal
    coordinates [xmin], [xmax], [ymin], [ymax]: when the product
    [(ymax - ymin) * (xmax - xmin)] equals [min_box_size] the loop appends
    nothing for it; when the product is strictly greater (and fits
    [np.int32], in which the product is computed) the loop appends its box. *)
Theorem C6_area_filter_strict (min_box : Q) (c : Contour) (rest : list Contour)
    (acc : list Detection) (xmin xmax ymin ymax : Z) :
  bounding_box c = Ok (xmin, xmax, ymin, ymax) ->
  ((inject_Z ((ymax - ymin) * (xmax - xmin)) == min_box)%Q ->
   boxes_of_contours min_box (c :: rest) acc
   = boxes_of_contours min_box rest acc)
  /\ ((min_box < inject_Z ((ymax - ymin) * (xmax - xmin)))%Q ->
      (ymax - ymin) * (xmax - xmin) < 2 ^ 31 ->
      boxes_of_contours min_box (c :: rest) acc
      = boxes_of_contours min_box rest
          (acc ++ [motion_box xmin xmax ymin ymax])%list).
Proof.
  intros Hbb. destruct (bounding_box_ordered _ _ _ _ _ Hbb) as [Hx Hy].
  rewrite (boxes_of_contours_step _ _ _ _ _ _ _ _ Hbb). split.
  - intros Heq.
    destruct (Qltb _ _) eqn:E; [|reflexivity].
    apply Qltb_lt in E. rewrite <- Heq in E. rewrite <- Zlt_Qlt in E.
    pose proof (box_product_le _ _ _ _ Hx Hy). lia.
  - intros Hgt Hfit. rewrite box_product_exact by done.
    apply Qltb_lt in Hgt. by rewrite Hgt.
Qed.

Lemma C6_area_filter_strict_witness :
  boxes_of_contours 100 [[(5, 5); (15, 5); (15, 15); (5, 15)]] [] = Ok []
  /\ boxes_of_contours 99 [[(5, 5); (15, 5); (15, 15); (5, 15)]] []
     = Ok [motion_box 5 15 5 15].
Proof.
  split.
  - apply (proj1 (C6_area_filter_strict 100
             [(5, 5); (15, 5); (15, 15); (5, 15)] [] [] 5 15 5 15 eq_refl)).
    reflexivity.
  - apply (proj2 (C6_area_filter_strict 99
             [(5, 5); (15, 5); (15, 15); (5, 15)] [] [] 5 15 5 15 eq_refl)).
    + reflexivity.
    + lia.
Defined.

(** The same through the whole pipeline, with the reference contour finder:
    a bright square over the pixels [10..20] of a [31 x 31] frame survives
    the two morphological passes unchanged, its box has the product
    [10 * 10 = 100], and it is dropped at [min_box_size = 100] and reported
    at [min_box_size = 99]. *)
Example area_filter_end_to_end :
  let w := delivering [np_zeros 31 31; blob_frame 31 10 20 255] in
  fst (@get_detections reference_finder (getMD (9 # 10) 100) None w) = Ok []
  /\ fst (@get_detections reference_finder (getMD (9 # 10) 99) None w)
     = Ok [motion_box 10 20 10 20].
Proof. split; vm_compute; reflexivity. Qed.

(** ** No degenerate box *)

Lemma box_product_degenerate xmin xmax ymin ymax :
  xmax = xmin \/ ymax = ymin -> box_product xmin xmax ymin ymax = 0.
Proof.
  unfold box_product. intros [-> | ->]; rewrite Z.sub_diag.
  - rewrite (int32_small 0) by lia. rewrite Z.mul_0_r. reflexivity.
  - reflexivity.
Qed.

(** The loop only ever appends boxes that passed the filter. *)
Lemma boxes_of_contours_invariant (P : Detection -> Prop) min_box :
  (forall xmin xmax ymin ymax,
     xmin <= xmax -> ymin <= ymax ->
     Qltb min_box (inject_Z (box_product xmin xmax ymin ymax)) = true ->
     P (motion_box xmin xmax ymin ymax)) ->
  forall contours acc dets,
    boxes_of_contours min_box contours acc = Ok dets ->
    Forall P acc -> Forall P dets.
Proof.
  intros HP contours. induction contours as [|c rest IH]; intros acc dets.
  - simpl. intros [= <-]. done.
  - destruct (bounding_box c) as [[[[xmin xmax] ymin] ymax]|e] eqn:Hbb.
    + rewrite (boxes_of_contours_step _ _ _ _ _ _ _ _ Hbb).
      destruct (bounding_box_ordered _ _ _ _ _ Hbb) as [Hx Hy].
      intros Hrun Hacc. eapply IH; [exact Hrun|].
      destruct (Qltb _ _) eqn:E; [|exact Hacc].
      apply Forall_app. split; [exact Hacc|]. constructor; [|constructor].
      by apply HP.
    + simpl. rewrite Hbb. done.
Qed.

(** Whatever [get_detections] returns came out of the loop. *)
Lemma get_detections_from_loop `{CF : ContourFinder} self image w dets :
  fst (get_detections self image w) = Ok dets ->
  exists contours, boxes_of_contours (min_box_size self) contours [] = Ok dets.
Proof.
  unfold get_detections, abind, lift.
  destruct (get_image (camera self) w) as [[input1|e] w1]; [|done].
  destruct (cvtColor_BGR2GRAY input1) as [gray1|e]; [|done].
  destruct (get_image (camera self) w1) as [[input2|e] w2]; [|done].
  destruct (cvtColor_BGR2GRAY input2) as [gray2|e]; [|done].
  destruct (absdiff gray2 gray1) as [diff|e]; [|done].
  simpl. eauto.
Qed.

(** The loop terminates normally on contours that are not empty. *)
Lemma boxes_of_contours_returns min_box contours acc :
  Forall (fun c => c <> []) contours ->
  exists dets, boxes_of_contours min_box contours acc = Ok dets.
Proof.
  intros Hne. revert acc. induction Hne as [|c rest Hc _ IH]; intros acc.
  - simpl. eauto.
  - destruct c as [|[x y] c]; [done|].
    assert (exists bb, bounding_box ((x, y) :: c) = Ok bb)
      as [[[[xmin xmax] ymin] ymax] Hbb] by (eexists; reflexivity).
    rewrite (boxes_of_contours_step _ _ _ _ _ _ _ _ Hbb). apply IH.
Qed.

(** With two non-empty frames of the same shape waiting, [get_detections]
    returns a list. *)
Lemma get_detections_returns `{CF : ContourFinder} self image w img1 img2 rest :
  w !! camera self = Some (img1 :: img2 :: rest) ->
  (0 < height (luminance img1))%nat -> (0 < width (luminance img1))%nat ->
  shape (luminance img2) = shape (luminance img1) ->
  exists dets, fst (get_detections self image w) = Ok dets.
Proof.
  intros Hw Hh Hwd Hsh.
  rewrite (get_detections_run self w img1 img2 rest Hw). unfold detect.
  rewrite (cvtColor_nonempty img1) by done.
  rewrite (cvtColor_nonempty img2)
    by (injection Hsh as Hh2 Hw2; rewrite ?Hh2, ?Hw2; done).
  simpl. unfold absdiff. rewrite decide_True by exact Hsh. simpl.
  apply boxes_of_contours_returns.
  apply Forall_forall. intros c Hc. apply list_elem_of_In in Hc.
  eapply contour_nonempty, Hc.
Qed.

(** C10.  With a non-negative [min_box_size], every detection returned by
    [get_detections] has [x_min < x_max] and [y_min < y_max]; and a contour
    whose extremal coordinates coincide on an axis is dropped by the loop,
    also when [min_box_size] is 0. *)
Theorem C10_no_degenerate_box `{CF : ContourFinder}
    (self : MotionDetector) (image : option Image) (w : World)
    (dets : list Detection) :
  (0 <= min_box_size self)%Q ->
  fst (get_detections self image w) = Ok dets ->
  Forall (fun d => x_min d < x_max d /\ y_min d < y_max d) dets
  /\ (forall c rest acc xmin xmax ymin ymax,
        bounding_box c = Ok (xmin, xmax, ymin, ymax) ->
        xmax = xmin \/ ymax = ymin ->
        boxes_of_contours (min_box_size self) (c :: rest) acc
        = boxes_of_contours (min_box_size self) rest acc).
Proof.
  intros Hmin Hrun. split.
  - destruct (get_detections_from_loop _ _ _ _ Hrun) as [contours Hloop].
    eapply boxes_of_contours_invariant; [|exact Hloop|constructor].
    intros xmin xmax ymin ymax Hx Hy Hkeep. simpl.
    apply Qltb_lt in Hkeep.
    assert (0 < box_product xmin xmax ymin ymax) as Hpos.
    { rewrite Zlt_Qlt. eapply Qle_lt_trans; [exact Hmin | exact Hkeep]. }
    destruct (Z.eq_dec xmax xmin) as [Ex|Ex].
    { rewrite box_product_degenerate in Hpos by (left; exact Ex). lia. }
    destruct (Z.eq_dec ymax ymin) as [Ey|Ey].
    { rewrite box_product_degenerate in Hpos by (right; exact Ey). lia. }
    lia.
  - intros c rest acc xmin xmax ymin ymax Hbb Hdeg.
    rewrite (boxes_of_contours_step _ _ _ _ _ _ _ _ Hbb).
    rewrite box_product_degenerate by exact Hdeg.
    destruct (Qltb _ _) eqn:E; [|reflexivity].
    apply Qltb_lt in E. exfalso. exact (Qlt_not_le _ _ E Hmin).
Qed.

Lemma C10_no_degenerate_box_witness :
  Forall (fun d => x_min d < x_max d /\ y_min d < y_max d)
    [motion_box 10 20 10 20].
Proof.
  apply (@C10_no_degenerate_box reference_finder (getMD (9 # 10) 0) None
           (delivering [np_zeros 31 31; blob_frame 31 10 20 255])
           [motion_box 10 20 10 20]).
  - unfold Qle; simpl; lia.
  - vm_compute; reflexivity.
Defined.

(** ** Configuration *)

(** A configuration within range is accepted; the camera is the only
    dependency reported. *)
Lemma validate_config_accepts config :
  (0 <= number_value (fields config "min_box_size"))%Q ->
  (0 <= number_value (fields config "sensitivity") <= 1)%Q ->
  validate_config config = Ok [string_value (fields config "cam_name")].
Proof.
  intros Hm [Hs0 Hs1]. unfold validate_config.
  destruct (Qltb (number_value (fields config "min_box_size")) 0) eqn:E1.
  { apply Qltb_lt in E1. exfalso. exact (Qlt_not_le _ _ E1 Hm). }
  destruct (Qltb (number_value (fields config "sensitivity")) 0) eqn:E2.
  { apply Qltb_lt in E2. exfalso. exact (Qlt_not_le _ _ E2 Hs0). }
  destruct (Qltb 1 (number_value (fields config "sensitivity"))) eqn:E3.
  { apply Qltb_lt in E3. exfalso. exact (Qlt_not_le _ _ E3 Hs1). }
  reflexivity.
Qed.

(** C7.  A configuration whose sensitivity lies outside [0, 1] or whose
    [min_box_size] is negative makes [validate_config] raise; the host,
    which validates first, therefore constructs no service from it and
    nothing is computed. *)
Theorem C7_out_of_range_rejected (config : ServiceConfig)
    (dependencies : gmap string Camera) :
  (number_value (fields config "sensitivity") < 0
   \/ 1 < number_value (fields config "sensitivity")
   \/ number_value (fields config "min_box_size") < 0)%Q ->
  (exists msg, validate_config config = Raise (Exception msg))
  /\ (exists msg, configure config dependencies = Raise (Exception msg)).
Proof.
  intros Hout.
  assert (exists msg, validate_config config = Raise (Exception msg)) as [msg Hv].
  { unfold validate_config.
    destruct (Qltb (number_value (fields config "min_box_size")) 0) eqn:E1;
      [eexists; reflexivity|].
    destruct Hout as [H | [H | H]].
    - apply Qltb_lt in H. rewrite H. eexists; reflexivity.
    - apply Qltb_lt in H. rewrite H, orb_true_r. eexists; reflexivity.
    - apply Qltb_lt in H. congruence. }
  split; exists msg; [exact Hv|]. unfold configure. by rewrite Hv.
Qed.

Lemma C7_out_of_range_rejected_witness :
  (exists msg, validate_config (config_of "cam" 2 1000) = Raise (Exception msg))
  /\ (exists msg,
        configure (config_of "cam" 2 1000) {[ "cam" := 1%positive ]}
        = Raise (Exception msg)).
Proof.
  apply (C7_out_of_range_rejected (config_of "cam" 2 1000) {[ "cam" := 1%positive ]}).
  right; left. vm_compute. reflexivity.
Defined.

Lemma fields_set_attribute_ne key key' v config :
  key <> key' -> fields (set_attribute key v config) key' = fields config key'.
Proof.
  intros Hne. unfold fields, set_attribute. simpl. by rewrite lookup_insert_ne.
Qed.

Lemma fields_set_attribute_eq key v config :
  fields (set_attribute key v config) key = v.
Proof. unfold fields, set_attribute. simpl. by rewrite lookup_insert_eq. Qed.

(** C8.  When the camera is among the dependencies, [reconfigure] succeeds;
    it stores 0.9 for a configured sensitivity of 0 and the configured
    value itself for any other; and configuring 0 yields the very service
    that configuring 0.9 yields. *)
Theorem C8_zero_sensitivity_replaced (self : MotionDetector)
    (config : ServiceConfig) (dependencies : gmap string Camera) (cam : Camera) :
  dependencies !! string_value (fields config "cam_name") = Some cam ->
  (exists self',
     reconfigure self config dependencies = Ok self'
     /\ ((number_value (fields config "sensitivity") == 0)%Q ->
         sensitivity self' = (9 # 10)%Q)
     /\ (~ (number_value (fields config "sensitivity") == 0)%Q ->
         sensitivity self' = number_value (fields config "sensitivity")))
  /\ reconfigure self (set_attribute "sensitivity" (NumberValue 0) config)
       dependencies
     = reconfigure self (set_attribute "sensitivity" (NumberValue (9 # 10)) config)
         dependencies.
Proof.
  intros Hcam. split.
  - unfold reconfigure. rewrite Hcam. eexists. split; [reflexivity|]. simpl.
    split; intros Hs.
    + apply Qeq_bool_iff in Hs. by rewrite Hs.
    + destruct (Qeq_bool _ 0) eqn:E; [|reflexivity].
      apply Qeq_bool_iff in E. contradiction.
  - unfold reconfigure.
    rewrite !fields_set_attribute_eq.
    rewrite !(fields_set_attribute_ne "sensitivity" "cam_name") by done.
    rewrite !(fields_set_attribute_ne "sensitivity" "min_box_size") by done.
    reflexivity.
Qed.

Lemma C8_zero_sensitivity_replaced_witness :
  (exists self',
     reconfigure (init "md") (config_of "cam" 0 1000) {[ "cam" := 1%positive ]}
     = Ok self'
     /\ sensitivity self' = (9 # 10)%Q)
  /\ (exists self',
        reconfigure (init "md") (config_of "cam" (1 # 2) 1000) {[ "cam" := 1%positive ]}
        = Ok self'
        /\ sensitivity self' = (1 # 2)%Q).
Proof.
  split.
  - destruct (C8_zero_sensitivity_replaced (init "md")
                (config_of "cam" 0 1000) {[ "cam" := 1%positive ]} 1%positive)
      as [(self' & Hrun & Hzero & _) _].
    { vm_compute. reflexivity. }
    exists self'. split; [exact Hrun|]. apply Hzero. vm_compute. reflexivity.
  - destruct (C8_zero_sensitivity_replaced (init "md")
                (config_of "cam" (1 # 2) 1000) {[ "cam" := 1%positive ]} 1%positive)
      as [(self' & Hrun & _ & Hother) _].
    { vm_compute. reflexivity. }
    exists self'. split; [exact Hrun|]. rewrite Hother.
    + vm_compute. reflexivity.
    + vm_compute. intros H. discriminate H.
Defined.

(** ** The arguments that are not read *)

(** C9.  [get_classifications] does not read [image] or [count], and
    [get_detections] does not read [image]: changing them changes nothing,
    in any world.  What is returned is determined by the two frames the
    camera delivers, the sensitivity and, for detections, [min_box_size]. *)
Theorem C9_image_argument_ignored `{CF : ContourFinder}
    (self self' : MotionDetector) (image image' : option Image)
    (count count' : Z) (w w' : World)
    (img1 img2 : Image) (rest rest' : list Image) :
  (get_classifications self image count = get_classifications self image' count'
   /\ get_detections self image = get_detections self image')
  /\ (w !! camera self = Some (img1 :: img2 :: rest) ->
      w' !! camera self' = Some (img1 :: img2 :: rest') ->
      sensitivity self = sensitivity self' ->
      min_box_size self = min_box_size self' ->
      fst (get_classifications self image count w)
      = fst (get_classifications self' image' count' w')
      /\ fst (get_detections self image w) = fst (get_detections self' image' w')).
Proof.
  split; [split; reflexivity|].
  intros Hw Hw' Hs Hm.
  rewrite (get_classifications_run self w img1 img2 rest Hw).
  rewrite (get_classifications_run self' w' img1 img2 rest' Hw').
  rewrite (get_detections_run self w img1 img2 rest Hw).
  rewrite (get_detections_run self' w' img1 img2 rest' Hw').
  by rewrite Hs, Hm.
Qed.

Lemma C9_image_argument_ignored_witness :
  fst (get_classifications (getMD (9 # 10) 99) None 1
         (delivering [np_zeros 31 31; blob_frame 31 10 20 255]))
  = fst (get_classifications (getMD (9 # 10) 99)
           (Some {| luminance := [[1; 2]; [3; 4]] |}) 5
           (delivering [np_zeros 31 31; blob_frame 31 10 20 255; [[9]]]))
  /\ fst (@get_detections reference_finder (getMD (9 # 10) 99) None
            (delivering [np_zeros 31 31; blob_frame 31 10 20 255]))
     = fst (@get_detections reference_finder (getMD (9 # 10) 99)
              (Some {| luminance := [[1; 2]; [3; 4]] |})
              (delivering [np_zeros 31 31; blob_frame 31 10 20 255; [[9]]])).
Proof.
  apply (proj2 (@C9_image_argument_ignored reference_finder
           (getMD (9 # 10) 99) (getMD (9 # 10) 99)
           None (Some {| luminance := [[1; 2]; [3; 4]] |}) 1 5 _ _
           {| luminance := np_zeros 31 31 |}
           {| luminance := blob_frame 31 10 20 255 |} [] [ {| luminance := [[9]] |} ])).
  - reflexivity.
  - reflexivity.
  - reflexivity.
  - reflexivity.
Defined.

(** * Further properties of the service *)

(** ** Configuration *)

Lemma validate_config_Ok config deps :
  validate_config config = Ok deps ->
  deps = [string_value (fields config "cam_name")]
  /\ (0 <= number_value (fields config "min_box_size")
      /\ 0 <= number_value (fields config "sensitivity")
      /\ number_value (fields config "sensitivity") <= 1)%Q.
Proof.
  unfold validate_config.
  destruct (Qltb (number_value (fields config "min_box_size")) 0) eqn:E1; [done|].
  destruct (Qltb (number_value (fields config "sensitivity")) 0) eqn:E2; [done|].
  destruct (Qltb 1 (number_value (fields config "sensitivity"))) eqn:E3; [done|].
  intros [= <-]. split; [reflexivity|].
  repeat split; apply Qnot_lt_le; intros H; apply Qltb_lt in H; congruence.
Qed.

(** X1.  [validate_config] accepts a configuration, reporting the camera as
    its only dependency, exactly when [min_box_size] is not negative and the
    sensitivity lies in [[0, 1]]. *)
Theorem X1_validate_config_accepts_iff (config : ServiceConfig) :
  validate_config config = Ok [string_value (fields config "cam_name")]
  <-> (0 <= number_value (fields config "min_box_size")
       /\ 0 <= number_value (fields config "sensitivity")
       /\ number_value (fields config "sensitivity") <= 1)%Q.
Proof.
  split.
  - intros Hv. by apply validate_config_Ok in Hv as [_ H].
  - intros (Hm & Hs0 & Hs1). by apply validate_config_accepts.
Qed.

Lemma fields_missing config key :
  attributes config !! key = None -> fields config key = NullValue.
Proof. unfold fields. by intros ->. Qed.

(** X2.  Attributes that are missing read as 0: a configuration without
    [sensitivity] and without [min_box_size] passes validation, and the
    service made from it has sensitivity 0.9 and [min_box_size] 0. *)
Theorem X2_missing_attributes_default (config : ServiceConfig)
    (dependencies : gmap string Camera) (cam : Camera) :
  attributes config !! "sensitivity" = None ->
  attributes config !! "min_box_size" = None ->
  dependencies !! string_value (fields config "cam_name") = Some cam ->
  validate_config config = Ok [string_value (fields config "cam_name")]
  /\ exists self,
       new_service config dependencies = Ok self
       /\ sensitivity self = (9 # 10)%Q /\ min_box_size self = 0%Q.
Proof.
  intros Hs Hm Hcam. split.
  - apply validate_config_accepts; rewrite fields_missing by done; simpl;
      [|split]; discriminate.
  - unfold new_service, reconfigure. rewrite Hcam.
    rewrite (fields_missing _ "sensitivity" Hs), (fields_missing _ "min_box_size" Hm).
    eexists. split; [reflexivity|]. split; reflexivity.
Qed.

Lemma X2_missing_attributes_default_witness :
  validate_config {| cfg_name := "md"; attributes := {[ "cam_name" := StringValue "cam" ]} |}
  = Ok [string_value
          (fields {| cfg_name := "md";
                     attributes := {[ "cam_name" := StringValue "cam" ]} |} "cam_name")]
  /\ exists self,
       new_service {| cfg_name := "md"; attributes := {[ "cam_name" := StringValue "cam" ]} |}
         {[ "cam" := 1%positive ]} = Ok self
       /\ sensitivity self = (9 # 10)%Q /\ min_box_size self = 0%Q.
Proof.
  apply (X2_missing_attributes_default
           {| cfg_name := "md"; attributes := {[ "cam_name" := StringValue "cam" ]} |}
           {[ "cam" := 1%positive ]} 1%positive).
  - vm_compute. reflexivity.
  - vm_compute. reflexivity.
  - vm_compute. reflexivity.
Defined.




(** X4.  When the configured camera is not among the dependencies,
    [reconfigure] and [new_service] raise [KeyError] for its name, whatever
    the other attributes are; validation does not catch this. *)
Theorem X4_missing_camera_raises_KeyError (self : MotionDetector)
    (config : ServiceConfig) (dependencies : gmap string Camera) :
  dependencies !! string_value (fields config "cam_name") = None ->
  reconfigure self config dependencies
  = Raise (KeyError (string_value (fields config "cam_name")))
  /\ new_service config dependencies
     = Raise (KeyError (string_value (fields config "cam_name")))
  /\ (forall deps, validate_config config = Ok deps ->
      configure config dependencies
      = Raise (KeyError (string_value (fields config "cam_name")))).
Proof.
  intros Hcam. unfold configure, new_service, reconfigure. rewrite Hcam.
  repeat split. intros deps ->. reflexivity.
Qed.

Lemma X4_missing_camera_raises_KeyError_witness :
  reconfigure (init "md") (config_of "cam" (9 # 10) 1000) {[ "other" := 1%positive ]}
  = Raise (KeyError (string_value (fields (config_of "cam" (9 # 10) 1000) "cam_name"))).
Proof.
  apply (X4_missing_camera_raises_KeyError (init "md") (config_of "cam" (9 # 10) 1000)
           {[ "other" := 1%positive ]}).
  vm_compute. reflexivity.
Defined.



(** ** Frames taken from the camera *)

Lemma get_classifications_state
    (self : MotionDetector) (image : option Image) (count : Z)
    (w : World) (img1 img2 : Image) (rest : list Image) :
  w !! camera self = Some (img1 :: img2 :: rest) ->
  (0 < height (luminance img1))%nat -> (0 < width (luminance img1))%nat ->
  get_classifications self image count w
  = (classify (sensitivity self) img1 img2, <[camera self := rest]> w).
Proof.
  intros Hw Hh Hwd.
  unfold get_classifications, classify, abind, lift, aret.
  rewrite (get_image_first self w img1 img2 rest Hw).
  rewrite (cvtColor_nonempty img1) by done. simpl.
  rewrite (get_image_second self w img2 rest).
  unfold World, Camera in *. rewrite insert_insert_eq.
  destruct (cvtColor_BGR2GRAY img2) as [gray2|e]; [|done]. simpl.
  destruct (absdiff gray2 (luminance img1)) as [diff|e]; done.
Qed.

Lemma get_detections_state `{CF : ContourFinder}
    (self : MotionDetector) (image : option Image)
    (w : World) (img1 img2 : Image) (rest : list Image) :
  w !! camera self = Some (img1 :: img2 :: rest) ->
  (0 < height (luminance img1))%nat -> (0 < width (luminance img1))%nat ->
  get_detections self image w
  = (detect (sensitivity self) (min_box_size self) img1 img2,
     <[camera self := rest]> w).
Proof.
  intros Hw Hh Hwd.
  unfold get_detections, detect, abind, lift.
  rewrite (get_image_first self w img1 img2 rest Hw).
  rewrite (cvtColor_nonempty img1) by done. simpl.
  rewrite (get_image_second self w img2 rest).
  unfold World, Camera in *. rewrite insert_insert_eq.
  destruct (cvtColor_BGR2GRAY img2) as [gray2|e]; [|done]. simpl.
  destruct (absdiff gray2 (luminance img1)) as [diff|e]; done.
Qed.

(** X6.  With two frames waiting, the first of them not empty, each of the
    two methods takes exactly these two frames from its camera, leaves the
    later frames and every other camera as they were, and returns what
    [classify] and [detect] compute from the two frames. *)
Theorem X6_two_frames_consumed `{CF : ContourFinder}
    (self : MotionDetector) (image : option Image) (count : Z)
    (w : World) (img1 img2 : Image) (rest : list Image) :
  w !! camera self = Some (img1 :: img2 :: rest) ->
  (0 < height (luminance img1))%nat -> (0 < width (luminance img1))%nat ->
  (get_classifications self image count w
   = (classify (sensitivity self) img1 img2, <[camera self := rest]> w)
   /\ get_detections self image w
      = (detect (sensitivity self) (min_box_size self) img1 img2,
         <[camera self := rest]> w))
  /\ (forall cam, cam <> camera self ->
      snd (get_classifications self image count w) !! cam = w !! cam
      /\ snd (get_detections self image w) !! cam = w !! cam).
Proof.
  intros Hw Hh Hwd.
  rewrite (get_classifications_state self image count w img1 img2 rest) by done.
  rewrite (get_detections_state self image w img1 img2 rest) by done.
  split; [done|]. intros cam Hcam. simpl.
  unfold World, Camera in *. by rewrite lookup_insert_ne.
Qed.

Lemma X6_two_frames_consumed_witness :
  get_classifications (getMD (9 # 10) 1000) None 1
    (delivering [ [[1; 2]]; [[3; 4]]; [[5; 6]] ])
  = (classify (9 # 10) {| luminance := [[1; 2]] |} {| luminance := [[3; 4]] |},
     <[1%positive := [ {| luminance := [[5; 6]] |} ]]>
       (delivering [ [[1; 2]]; [[3; 4]]; [[5; 6]] ])).
Proof.
  apply (@X6_two_frames_consumed reference_finder (getMD (9 # 10) 1000) None 1
           (delivering [ [[1; 2]]; [[3; 4]]; [[5; 6]] ])
           {| luminance := [[1; 2]] |} {| luminance := [[3; 4]] |}
           [ {| luminance := [[5; 6]] |} ]).
  - reflexivity.
  - vm_compute; lia.
  - vm_compute; lia.
Defined.

(** X7.  A camera that cannot deliver two frames gives no result.  When it
    has no frame at all both methods raise [CameraError] and change
    nothing; when it has a single (non-empty) frame they raise
    [CameraError] after having taken that frame. *)
Theorem X7_camera_runs_dry `{CF : ContourFinder}
    (self : MotionDetector) (image : option Image) (count : Z) (w : World) :
  (w !! camera self = None \/ w !! camera self = Some [] ->
   get_classifications self image count w = (Raise CameraError, w)
   /\ get_detections self image w = (Raise CameraError, w))
  /\ (forall img,
        w !! camera self = Some [img] ->
        (0 < height (luminance img))%nat -> (0 < width (luminance img))%nat ->
        get_classifications self image count w
        = (Raise CameraError, <[camera self := []]> w)
        /\ get_detections self image w
           = (Raise CameraError, <[camera self := []]> w)).
Proof.
  split.
  - intros Hw. unfold get_classifications, get_detections, abind, get_image.
    destruct Hw as [-> | ->]; done.
  - intros img Hw Hh Hwd.
    unfold get_classifications, get_detections, abind, lift, get_image.
    rewrite Hw. rewrite (cvtColor_nonempty img) by done. simpl.
    unfold World, Camera in *. rewrite lookup_insert_eq. done.
Qed.

Lemma X7_camera_runs_dry_witness :
  (get_classifications (getMD (9 # 10) 1000) None 1 (delivering [])
   = (Raise CameraError, delivering [])
   /\ @get_detections reference_finder (getMD (9 # 10) 1000) None (delivering [])
      = (Raise CameraError, delivering []))
  /\ (get_classifications (getMD (9 # 10) 1000) None 1 (delivering [ [[1; 2]] ])
      = (Raise CameraError, <[1%positive := []]> (delivering [ [[1; 2]] ]))
      /\ @get_detections reference_finder (getMD (9 # 10) 1000) None
           (delivering [ [[1; 2]] ])
         = (Raise CameraError, <[1%positive := []]> (delivering [ [[1; 2]] ]))).
Proof.
  split.
  - apply (proj1 (@X7_camera_runs_dry reference_finder (getMD (9 # 10) 1000)
                    None 1 (delivering []))).
    right. reflexivity.
  - apply (proj2 (@X7_camera_runs_dry reference_finder (getMD (9 # 10) 1000)
                    None 1 (delivering [ [[1; 2]] ])) {| luminance := [[1; 2]] |}).
    + reflexivity.
    + vm_compute; lia.
    + vm_compute; lia.
Defined.

(** X8.  Asked for a camera other than the configured one, both
    [..._from_camera] methods raise an exception without taking a frame. *)
Theorem X8_wrong_camera_name_rejected `{CF : ContourFinder}
    (self : MotionDetector) (camera_name : string) (count : Z) (w : World) :
  camera_name <> cam_name self ->
  (exists msg,
     get_classifications_from_camera self camera_name count w
     = (Raise (Exception msg), w))
  /\ (exists msg,
        get_detections_from_camera self camera_name w = (Raise (Exception msg), w)).
Proof.
  intros Hne. unfold get_classifications_from_camera, get_detections_from_camera.
  rewrite !decide_False by exact Hne. split; eexists; reflexivity.
Qed.

Lemma X8_wrong_camera_name_rejected_witness :
  (exists msg,
     get_classifications_from_camera (getMD (9 # 10) 1000) "other" 1
       (delivering [ [[1; 2]]; [[3; 4]] ])
     = (Raise (Exception msg), delivering [ [[1; 2]]; [[3; 4]] ]))
  /\ (exists msg,
        @get_detections_from_camera reference_finder (getMD (9 # 10) 1000) "other"
          (delivering [ [[1; 2]]; [[3; 4]] ])
        = (Raise (Exception msg), delivering [ [[1; 2]]; [[3; 4]] ])).
Proof.
  apply (@X8_wrong_camera_name_rejected reference_finder (getMD (9 # 10) 1000)
           "other" 1 (delivering [ [[1; 2]]; [[3; 4]] ])).
  vm_compute. intros H. discriminate H.
Defined.

(** X9.  [get_classifications_from_camera] takes three frames, not two: the
    frame it fetches itself is passed on as [image] and never read, and the
    classification is computed from the second and the third frame.
    [get_detections_from_camera] takes two and computes the detections from
    the first and the second. *)
Theorem X9_from_camera_discards_first_frame `{CF : ContourFinder}
    (self : MotionDetector) (camera_name : string) (count : Z)
    (w : World) (img0 img1 img2 : Image) (rest : list Image) :
  camera_name = cam_name self ->
  w !! camera self = Some (img0 :: img1 :: img2 :: rest) ->
  (0 < height (luminance img0))%nat -> (0 < width (luminance img0))%nat ->
  (0 < height (luminance img1))%nat -> (0 < width (luminance img1))%nat ->
  get_classifications_from_camera self camera_name count w
  = (classify (sensitivity self) img1 img2, <[camera self := rest]> w)
  /\ get_detections_from_camera self camera_name w
     = (detect (sensitivity self) (min_box_size self) img0 img1,
        <[camera self := img2 :: rest]> w).
Proof.
  intros Hname Hw Hh0 Hw0 Hh Hwd.
  unfold get_classifications_from_camera, get_detections_from_camera.
  rewrite !decide_True by exact Hname. split.
  - unfold abind at 1. unfold get_image at 1. rewrite Hw.
    rewrite (get_classifications_state self (Some img0) count
               (<[camera self := img1 :: img2 :: rest]> w) img1 img2 rest);
      [| unfold World, Camera in *; apply lookup_insert_eq | done | done].
    unfold World, Camera in *. by rewrite insert_insert_eq.
  - by apply get_detections_state.
Qed.

Lemma X9_from_camera_discards_first_frame_witness :
  get_classifications_from_camera (getMD (9 # 10) 1000) "test" 1
    (delivering [ [[200; 200]]; [[1; 2]]; [[1; 2]] ])
  = (classify (9 # 10) {| luminance := [[1; 2]] |} {| luminance := [[1; 2]] |},
     <[1%positive := []]> (delivering [ [[200; 200]]; [[1; 2]]; [[1; 2]] ]))
  /\ @get_detections_from_camera reference_finder (getMD (9 # 10) 1000) "test"
       (delivering [ [[200; 200]]; [[1; 2]]; [[1; 2]] ])
     = (@detect reference_finder (9 # 10) 1000 {| luminance := [[200; 200]] |}
          {| luminance := [[1; 2]] |},
        <[1%positive := [ {| luminance := [[1; 2]] |} ]]>
          (delivering [ [[200; 200]]; [[1; 2]]; [[1; 2]] ])).
Proof.
  apply (@X9_from_camera_discards_first_frame reference_finder
           (getMD (9 # 10) 1000) "test" 1
           (delivering [ [[200; 200]]; [[1; 2]]; [[1; 2]] ])
           {| luminance := [[200; 200]] |} {| luminance := [[1; 2]] |}
           {| luminance := [[1; 2]] |} []).
  - reflexivity.
  - reflexivity.
  - vm_compute; lia.
  - vm_compute; lia.
  - vm_compute; lia.
  - vm_compute; lia.
Defined.

(** X10.  The two methods do not look at the same pair of frames: a
    detection requested after a classification is computed from the two
    frames that follow the two the classification was computed from. *)
Theorem X10_successive_calls_use_successive_frames `{CF : ContourFinder}
    (self : MotionDetector) (image image' : option Image) (count : Z)
    (w : World) (img1 img2 img3 img4 : Image) (rest : list Image) :
  w !! camera self = Some (img1 :: img2 :: img3 :: img4 :: rest) ->
  (0 < height (luminance img1))%nat -> (0 < width (luminance img1))%nat ->
  (0 < height (luminance img3))%nat -> (0 < width (luminance img3))%nat ->
  fst (get_classifications self image count w)
  = classify (sensitivity self) img1 img2
  /\ get_detections self image' (snd (get_classifications self image count w))
     = (detect (sensitivity self) (min_box_size self) img3 img4,
        <[camera self := rest]> w).
Proof.
  intros Hw Hh1 Hw1 Hh3 Hw3.
  rewrite (get_classifications_state self image count w img1 img2
             (img3 :: img4 :: rest)) by done.
  simpl. split; [reflexivity|].
  rewrite (get_detections_state self image' _ img3 img4 rest);
    [| unfold World, Camera in *; apply lookup_insert_eq | done | done].
  unfold World, Camera in *. by rewrite insert_insert_eq.
Qed.

Lemma X10_successive_calls_use_successive_frames_witness :
  fst (get_classifications (getMD (9 # 10) 0) None 1
         (delivering [ [[0; 0]]; [[0; 0]]; [[0; 0]]; [[200; 200]] ]))
  = classify (9 # 10) {| luminance := [[0; 0]] |} {| luminance := [[0; 0]] |}
  /\ @get_detections reference_finder (getMD (9 # 10) 0) None
       (snd (get_classifications (getMD (9 # 10) 0) None 1
               (delivering [ [[0; 0]]; [[0; 0]]; [[0; 0]]; [[200; 200]] ])))
     = (@detect reference_finder (9 # 10) 0 {| luminance := [[0; 0]] |}
          {| luminance := [[200; 200]] |},
        <[1%positive := []]>
          (delivering [ [[0; 0]]; [[0; 0]]; [[0; 0]]; [[200; 200]] ])).
Proof.
  apply (@X10_successive_calls_use_successive_frames reference_finder
           (getMD (9 # 10) 0) None None 1
           (delivering [ [[0; 0]]; [[0; 0]]; [[0; 0]]; [[200; 200]] ])
           {| luminance := [[0; 0]] |} {| luminance := [[0; 0]] |}
           {| luminance := [[0; 0]] |} {| luminance := [[200; 200]] |} []).
  - reflexivity.
  - vm_compute; lia.
  - vm_compute; lia.
  - vm_compute; lia.
  - vm_compute; lia.
Defined.

(** ** The two frames *)

Lemma absdiff_Ok src1 src2 diff :
  absdiff src1 src2 = Ok diff ->
  shape src1 = shape src2
  /\ diff = zip_with (zip_with (fun a b => Z.abs (a - b))) src1 src2.
Proof.
  unfold absdiff. destruct (decide (shape src1 = shape src2)) as [Hs|Hs].
  - intros [= <-]. done.
  - destruct (_ || _); done.
Qed.

Lemma zip_abs_comm (src1 src2 : GrayFrame) :
  zip_with (zip_with (fun a b => Z.abs (a - b))) src1 src2
  = zip_with (zip_with (fun a b => Z.abs (a - b))) src2 src1.
Proof.
  revert src2. induction src1 as [|r1 src1 IH]; intros [|r2 src2]; simpl; try done.
  f_equal; [|apply IH]. clear.
  revert r2. induction r1 as [|a r1 IH]; intros [|b r2]; simpl; try done.
  f_equal; [lia | apply IH].
Qed.

Lemma absdiff_comm src1 src2 : absdiff src1 src2 = absdiff src2 src1.
Proof.
  unfold absdiff.
  destruct (decide (shape src1 = shape src2)) as [Hs|Hs].
  - rewrite decide_True by done. by rewrite zip_abs_comm.
  - rewrite decide_False by (intros H; apply Hs; done).
    by rewrite orb_comm.
Qed.

Lemma cvtColor_Ok img gray :
  cvtColor_BGR2GRAY img = Ok gray -> gray = luminance img.
Proof. unfold cvtColor_BGR2GRAY. destruct (_ || _); [done|]. by intros [= <-]. Qed.

Lemma cvtColor_Raise img e :
  cvtColor_BGR2GRAY img = Raise e ->
  e = Cv2Error "cvtColor: (-215:Assertion failed) !_src.empty()".
Proof. unfold cvtColor_BGR2GRAY. destruct (_ || _); [|done]. by intros [= <-]. Qed.

(** X11.  The order of the two frames does not matter: exchanging them
    gives the same classification and the same detections, and the same
    exception when there is one. *)
Theorem X11_frame_order_irrelevant `{CF : ContourFinder}
    (sens min_box : Q) (img1 img2 : Image) :
  classify sens img1 img2 = classify sens img2 img1
  /\ detect sens min_box img1 img2 = detect sens min_box img2 img1.
Proof.
  unfold classify, detect.
  destruct (cvtColor_BGR2GRAY img1) as [g1|e1] eqn:E1;
    destruct (cvtColor_BGR2GRAY img2) as [g2|e2] eqn:E2; simpl; try done.
  - apply cvtColor_Ok in E1 as ->. apply cvtColor_Ok in E2 as ->.
    rewrite (absdiff_comm (luminance img2) (luminance img1)).
    destruct (absdiff (luminance img1) (luminance img2)) as [diff|e] eqn:Hd;
      simpl; [|done].
    apply absdiff_Ok in Hd as [Hshape _].
    assert (size img1 = size img2) as ->; [|done].
    unfold size. injection Hshape as -> ->. reflexivity.
  - apply cvtColor_Raise in E1 as ->. apply cvtColor_Raise in E2 as ->. done.
Qed.

(** ** The confidence *)

Lemma threshold_pixel_nonneg k d : 0 <= d -> 0 <= threshold_pixel k 1 d.
Proof.
  intros Hd. unfold threshold_pixel.
  destruct (Z.ltb_spec d k); [destruct (Z.ltb_spec k 0); lia|].
  destruct (Z.ltb_spec k d); lia.
Qed.

Lemma conf_of_nonneg mask (sz : Z * Z) :
  0 <= np_sum mask -> 0 <= fst sz * snd sz -> (0 <= conf_of mask sz)%Q.
Proof.
  intros Hs Hn. unfold conf_of. rewrite Qred_correct. unfold Qdiv.
  apply Qmult_le_0_compat.
  - change 0%Q with (inject_Z 0). by rewrite <- Zle_Qle.
  - apply Qinv_le_0_compat. change 0%Q with (inject_Z 0). by rewrite <- Zle_Qle.
Qed.

Lemma size_nonneg img : 0 <= fst (size img) * snd (size img).
Proof. unfold size. simpl. nia. Qed.

Lemma np_sum_nonneg_pointwise (f : Z -> Z) (a : GrayFrame) :
  Forall (Forall (fun d => 0 <= f d)) a -> 0 <= np_sum (map (map f) a).
Proof.
  intros H. rewrite <- (np_sum_zeros a). by apply np_sum_pointwise.
Qed.

(** Whenever a classification is returned it is the single classification
    "motion", computed from the difference of the two frames. *)
Lemma classify_Ok sens img1 img2 cs :
  classify sens img1 img2 = Ok cs ->
  exists diff,
    absdiff (luminance img2) (luminance img1) = Ok diff
    /\ (0 < height (luminance img1))%nat /\ (0 < width (luminance img1))%nat
    /\ cs = [ {| class_name := "motion";
                 confidence := conf_of (threshold_mask (threshold sens) 1 diff)
                                 (size img1) |} ].
Proof.
  unfold classify.
  destruct (cvtColor_BGR2GRAY img1) as [g1|e1] eqn:E1; [|done]. simpl.
  destruct (cvtColor_BGR2GRAY img2) as [g2|e2] eqn:E2; [|done]. simpl.
  pose proof (cvtColor_Ok _ _ E1) as ->. pose proof (cvtColor_Ok _ _ E2) as ->.
  destruct (absdiff _ _) as [diff|e] eqn:Hd; [|done]. simpl. intros [= <-].
  exists diff. split; [done|].
  unfold cvtColor_BGR2GRAY in E1.
  destruct (Nat.eqb_spec (height (luminance img1)) 0); [done|].
  destruct (Nat.eqb_spec (width (luminance img1)) 0); [done|].
  repeat split; [lia | lia].
Qed.

(** X12.  Whatever the sensitivity, in range or not, a classification that
    is returned is the single classification "motion" and its confidence is
    not negative. *)
Theorem X12_confidence_never_negative (sens : Q) (img1 img2 : Image)
    (cs : list Classification) :
  classify sens img1 img2 = Ok cs ->
  exists conf,
    cs = [ {| class_name := "motion"; confidence := conf |} ] /\ (0 <= conf)%Q.
Proof.
  intros Hrun. apply classify_Ok in Hrun as (diff & Hd & _ & _ & ->).
  eexists. split; [reflexivity|].
  apply conf_of_nonneg; [|apply size_nonneg].
  rewrite threshold_mask_pixelwise. apply np_sum_nonneg_pointwise.
  apply absdiff_Ok in Hd as [_ ->].
  eapply Forall_impl; [apply zip_rows_nonneg|]. intros row Hrow.
  eapply Forall_impl; [exact Hrow|]. intros d Hd. by apply threshold_pixel_nonneg.
Qed.

Lemma X12_confidence_never_negative_witness :
  exists conf,
    [ {| class_name := "motion"; confidence := 1 |} ]
    = [ {| class_name := "motion"; confidence := conf |} ] /\ (0 <= conf)%Q.
Proof.
  apply (X12_confidence_never_negative 2 {| luminance := [[0; 0]; [0; 0]] |}
           {| luminance := [[31; 31]; [0; 200]] |}).
  vm_compute. reflexivity.
Defined.





Lemma absdiff_nonneg src1 src2 diff :
  absdiff src1 src2 = Ok diff -> Forall (Forall (fun d => 0 <= d)) diff.
Proof. intros Hd. apply absdiff_Ok in Hd as [_ ->]. apply zip_rows_nonneg. Qed.

(** With a difference in hand both computations go through. *)
Lemma classify_of_difference sens img1 img2 diff :
  (0 < height (luminance img1))%nat -> (0 < width (luminance img1))%nat ->
  absdiff (luminance img2) (luminance img1) = Ok diff ->
  classify sens img1 img2
  = Ok [ {| class_name := "motion";
            confidence := conf_of (threshold_mask (threshold sens) 1 diff) (size img1) |} ].
Proof.
  intros Hh Hw Hd. unfold classify.
  pose proof (absdiff_Ok _ _ _ Hd) as [Hshape _].
  rewrite (cvtColor_nonempty img1) by done.
  rewrite (cvtColor_nonempty img2)
    by (injection Hshape as Hh2 Hw2; rewrite ?Hh2, ?Hw2; done).
  simpl. by rewrite Hd.
Qed.

Lemma detect_of_difference `{CF : ContourFinder} sens min_box img1 img2 diff :
  (0 < height (luminance img1))%nat -> (0 < width (luminance img1))%nat ->
  absdiff (luminance img2) (luminance img1) = Ok diff ->
  detect sens min_box img1 img2
  = boxes_of_contours min_box
      (findContours (denoise (threshold sens) diff) RETR_EXTERNAL CHAIN_APPROX_NONE) [].
Proof.
  intros Hh Hw Hd. unfold detect.
  pose proof (absdiff_Ok _ _ _ Hd) as [Hshape _].
  rewrite (cvtColor_nonempty img1) by done.
  rewrite (cvtColor_nonempty img2)
    by (injection Hshape as Hh2 Hw2; rewrite ?Hh2, ?Hw2; done).
  simpl. by rewrite Hd.
Qed.

Lemma threshold_mask_below k active diff :
  Forall (Forall (fun d => 0 <= d < k)) diff -> blank (threshold_mask k active diff).
Proof.
  intros Hd. rewrite threshold_mask_pixelwise. unfold blank. rewrite Forall_map.
  eapply Forall_impl; [exact Hd|]. intros row Hrow. rewrite Forall_map.
  eapply Forall_impl; [exact Hrow|]. intros d Hk. simpl in *. unfold threshold_pixel.
  destruct (Z.ltb_spec d k); [|lia]. destruct (Z.ltb_spec k 0); lia.
Qed.

Lemma Forall2_and (P Q : Z -> Prop) (a : GrayFrame) :
  Forall (Forall P) a -> Forall (Forall Q) a -> Forall (Forall (fun d => P d /\ Q d)) a.
Proof.
  intros HP HQ. apply Forall_forall. intros row Hrow. apply Forall_forall. intros d Hd.
  split.
  - exact (proj1 (Forall_forall _ _) (proj1 (Forall_forall _ _) HP row Hrow) d Hd).
  - exact (proj1 (Forall_forall _ _) (proj1 (Forall_forall _ _) HQ row Hrow) d Hd).
Qed.

(** X14.  Changes below the threshold are not motion: when every pixel of
    the two frames differs by less than the threshold, the confidence is
    exactly 0 and no detection is returned, whatever [min_box_size] is. *)
Theorem X14_below_threshold_no_motion `{CF : ContourFinder}
    (sens min_box : Q) (img1 img2 : Image) (diff : GrayFrame) :
  (0 < height (luminance img1))%nat -> (0 < width (luminance img1))%nat ->
  absdiff (luminance img2) (luminance img1) = Ok diff ->
  Forall (Forall (fun d => d < threshold sens)) diff ->
  classify sens img1 img2 = Ok [ {| class_name := "motion"; confidence := 0 |} ]
  /\ detect sens min_box img1 img2 = Ok [].
Proof.
  intros Hh Hw Hd Hbelow.
  assert (Forall (Forall (fun d => 0 <= d < threshold sens)) diff) as Hrange
    by (apply Forall2_and; [by eapply absdiff_nonneg | exact Hbelow]).
  rewrite (classify_of_difference sens img1 img2 diff) by done.
  rewrite (detect_of_difference sens min_box img1 img2 diff) by done.
  split.
  - rewrite conf_of_blank; [reflexivity|]. by apply threshold_mask_below.
  - rewrite findContours_blank; [reflexivity|]. unfold denoise.
    apply erode_blank; [exact centre_in_15x15|].
    apply dilate_blank; [exact centre_in_15x15|].
    apply dilate_blank; [exact centre_in_3x3|].
    apply erode_blank; [exact centre_in_3x3|].
    by apply threshold_mask_below.
Qed.

Lemma X14_below_threshold_no_motion_witness :
  classify (9 # 10) {| luminance := [[10; 20]; [30; 40]] |}
    {| luminance := [[34; 0]; [30; 51]] |}
  = Ok [ {| class_name := "motion"; confidence := 0 |} ]
  /\ @detect reference_finder (9 # 10) 0 {| luminance := [[10; 20]; [30; 40]] |}
       {| luminance := [[34; 0]; [30; 51]] |} = Ok [].
Proof.
  apply (@X14_below_threshold_no_motion reference_finder (9 # 10) 0
           {| luminance := [[10; 20]; [30; 40]] |}
           {| luminance := [[34; 0]; [30; 51]] |} [[24; 20]; [0; 11]]).
  - vm_compute; lia.
  - vm_compute; lia.
  - reflexivity.
  - vm_compute. repeat constructor.
Defined.







Lemma threshold_at_most_1 sens :
  (254 # 255 <= sens)%Q -> threshold sens <= 1.
Proof.
  intros Hs. unfold threshold.
  transitivity (Qfloor 1); [|reflexivity]. apply Qfloor_resp_le.
  destruct sens as [n d]. unfold Qle in *. simpl in *. lia.
Qed.

(** X16.  At the highest sensitivities the pixels at the threshold do no
    harm: for a sensitivity between 254/255 and 1 (threshold 0 or 1) and a
    rectangular first frame, the confidence lies in [[0, 1]]. *)
Theorem X16_confidence_unit_at_top_sensitivity
    (sens : Q) (img1 img2 : Image) (cs : list Classification) :
  (254 # 255 <= sens)%Q -> (sens <= 1)%Q ->
  rectangular (luminance img1) ->
  classify sens img1 img2 = Ok cs ->
  exists conf,
    cs = [ {| class_name := "motion"; confidence := conf |} ]
    /\ (0 <= conf <= 1)%Q.
Proof.
  intros Hlo Hhi Hr1 Hrun.
  pose proof (threshold_nonneg _ Hhi) as Hk0.
  pose proof (threshold_at_most_1 _ Hlo) as Hk1.
  apply classify_Ok in Hrun as (diff & Hd & Hh & Hw & ->).
  eexists. split; [reflexivity|].
  apply conf_of_unit; [unfold size; simpl; nia|].
  pose proof (absdiff_nonneg _ _ _ Hd) as Hnn.
  pose proof (absdiff_Ok _ _ _ Hd) as [Hshape Hdiff].
  assert (Forall (Forall (fun d => 0 <= threshold_pixel (threshold sens) 1 d <= 1)) diff)
    as Hbin.
  { eapply Forall_impl; [exact Hnn|]. intros row Hrow.
    eapply Forall_impl; [exact Hrow|]. intros d Hd0. simpl in *. unfold threshold_pixel.
    destruct (Z.ltb_spec d (threshold sens)).
    - destruct (Z.ltb_spec (threshold sens) 0); lia.
    - destruct (Z.ltb_spec (threshold sens) d); lia. }
  rewrite threshold_mask_pixelwise. split.
  - apply np_sum_nonneg_pointwise.
    eapply Forall_impl; [exact Hbin|]. intros row Hrow.
    eapply Forall_impl; [exact Hrow|]. simpl. lia.
  - etransitivity.
    + apply (np_sum_pointwise _ (fun _ => 1)).
      eapply Forall_impl; [exact Hbin|]. intros row Hrow.
      eapply Forall_impl; [exact Hrow|]. simpl. lia.
    + etransitivity.
      * apply (np_sum_ones _ (width (luminance img1))).
        rewrite Hdiff. apply zip_rows_width. exact Hr1.
      * rewrite Hdiff, length_zip_with. unfold size, height. simpl. nia.
Qed.

Lemma X16_confidence_unit_at_top_sensitivity_witness :
  exists conf,
    [ {| class_name := "motion"; confidence := 3 # 4 |} ]
    = [ {| class_name := "motion"; confidence := conf |} ]
    /\ (0 <= conf <= 1)%Q.
Proof.
  apply (X16_confidence_unit_at_top_sensitivity 1
           {| luminance := [[10; 20]; [30; 40]] |}
           {| luminance := [[10; 0]; [31; 51]] |}).
  - unfold Qle; simpl; lia.
  - unfold Qle; simpl; lia.
  - vm_compute. repeat constructor.
  - vm_compute. reflexivity.
Defined.

(** ** The loop over the contours *)

Lemma bounding_box_nonempty c :
  c <> [] -> exists xmin xmax ymin ymax, bounding_box c = Ok (xmin, xmax, ymin, ymax).
Proof. destruct c as [|[x y] c]; [done|]. intros _. do 4 eexists. reflexivity. Qed.

(** The loop is a filter: it appends, in the order of the contours, the
    boxes that pass the test. *)
Lemma boxes_of_contours_omap min_box contours acc :
  Forall (fun c => c <> []) contours ->
  boxes_of_contours min_box contours acc
  = Ok (acc ++ omap (box_if_kept min_box) contours)%list.
Proof.
  intros Hne. revert acc. induction Hne as [|c rest Hc _ IH]; intros acc.
  - simpl. by rewrite app_nil_r.
  - destruct (bounding_box_nonempty c Hc) as (xmin & xmax & ymin & ymax & Hbb).
    rewrite (boxes_of_contours_step _ _ _ _ _ _ _ _ Hbb), IH.
    simpl. unfold box_if_kept at 2. rewrite Hbb.
    destruct (Qltb _ _); [|reflexivity]. by rewrite <- app_assoc.
Qed.

Lemma detect_Ok `{CF : ContourFinder} sens min_box img1 img2 dets :
  detect sens min_box img1 img2 = Ok dets ->
  exists diff,
    absdiff (luminance img2) (luminance img1) = Ok diff
    /\ (0 < height (luminance img1))%nat /\ (0 < width (luminance img1))%nat
    /\ dets = omap (box_if_kept min_box)
                (findContours (denoise (threshold sens) diff)
                   RETR_EXTERNAL CHAIN_APPROX_NONE).
Proof.
  unfold detect.
  destruct (cvtColor_BGR2GRAY img1) as [g1|e1] eqn:E1; [|done]. simpl.
  destruct (cvtColor_BGR2GRAY img2) as [g2|e2] eqn:E2; [|done]. simpl.
  pose proof (cvtColor_Ok _ _ E1) as ->. pose proof (cvtColor_Ok _ _ E2) as ->.
  destruct (absdiff _ _) as [diff|e] eqn:Hd; [|done]. simpl.
  rewrite boxes_of_contours_omap.
  2:{ apply Forall_forall. intros c Hc. apply list_elem_of_In in Hc.
      eapply contour_nonempty, Hc. }
  intros [= <-]. exists diff. split; [done|].
  unfold cvtColor_BGR2GRAY in E1.
  destruct (Nat.eqb_spec (height (luminance img1)) 0); [done|].
  destruct (Nat.eqb_spec (width (luminance img1)) 0); [done|].
  repeat split; [lia | lia].
Qed.

(** X17.  For two non-empty frames of the same shape the detection always
    returns a list, and it is the list of the contours' boxes that pass the
    area test, one per contour at most and in the order in which
    [findContours] reports the contours. *)
Theorem X17_detections_filter_contours `{CF : ContourFinder}
    (sens min_box : Q) (img1 img2 : Image) (diff : GrayFrame) :
  (0 < height (luminance img1))%nat -> (0 < width (luminance img1))%nat ->
  absdiff (luminance img2) (luminance img1) = Ok diff ->
  let contours :=
    findContours (denoise (threshold sens) diff) RETR_EXTERNAL CHAIN_APPROX_NONE in
  detect sens min_box img1 img2 = Ok (omap (box_if_kept min_box) contours)
  /\ (length (omap (box_if_kept min_box) contours) <= length contours)%nat.
Proof.
  intros Hh Hw Hd contours. split.
  - rewrite (detect_of_difference sens min_box img1 img2 diff) by done.
    rewrite boxes_of_contours_omap; [reflexivity|].
    apply Forall_forall. intros c Hc. apply list_elem_of_In in Hc.
    eapply contour_nonempty, Hc.
  - generalize contours. clear. intros cs.
    induction cs as [|c cs IH]; simpl; [lia|]. unfold omap in IH.
    destruct (box_if_kept min_box c); simpl; lia.
Qed.

Lemma X17_detections_filter_contours_witness :
  @detect reference_finder (9 # 10) 99 {| luminance := np_zeros 31 31 |}
    {| luminance := blob_frame 31 10 20 255 |}
  = Ok (omap (box_if_kept 99)
          (@findContours reference_finder
             (denoise (threshold (9 # 10)) (blob_frame 31 10 20 255))
             RETR_EXTERNAL CHAIN_APPROX_NONE)).
Proof.
  apply (@X17_detections_filter_contours reference_finder (9 # 10) 99
           {| luminance := np_zeros 31 31 |}
           {| luminance := blob_frame 31 10 20 255 |} (blob_frame 31 10 20 255)).
  - vm_compute; lia.
  - vm_compute; lia.
  - vm_compute. reflexivity.
Defined.

Lemma box_if_kept_mono m1 m2 c d :
  (m1 <= m2)%Q -> box_if_kept m2 c = Some d -> box_if_kept m1 c = Some d.
Proof.
  intros Hm. unfold box_if_kept.
  destruct (bounding_box c) as [[[[xmin xmax] ymin] ymax]|e]; [|done].
  destruct (Qltb m2 _) eqn:E2; [|done]. intros [= <-].
  apply Qltb_lt in E2.
  assert (Qltb m1 (inject_Z (box_product xmin xmax ymin ymax)) = true) as ->
    by (apply Qltb_lt; eapply Qle_lt_trans; eauto).
  reflexivity.
Qed.

Lemma omap_box_sublist m1 m2 (contours : list Contour) :
  (m1 <= m2)%Q ->
  omap (box_if_kept m2) contours `sublist_of` omap (box_if_kept m1) contours.
Proof.
  intros Hm. induction contours as [|c cs IH]; simpl; [constructor|].
  destruct (box_if_kept m2 c) as [d|] eqn:E2.
  - rewrite (box_if_kept_mono m1 m2 c d Hm E2). by constructor.
  - destruct (box_if_kept m1 c); [by constructor | exact IH].
Qed.

(** X18.  Raising [min_box_size] only removes detections: for the same two
    frames and the same sensitivity, the detections at a larger
    [min_box_size] are a sub-list of the detections at a smaller one. *)
Theorem X18_detections_antitone_in_min_box_size `{CF : ContourFinder}
    (sens m1 m2 : Q) (img1 img2 : Image) (dets1 dets2 : list Detection) :
  (m1 <= m2)%Q ->
  detect sens m1 img1 img2 = Ok dets1 ->
  detect sens m2 img1 img2 = Ok dets2 ->
  dets2 `sublist_of` dets1.
Proof.
  intros Hm H1 H2.
  apply detect_Ok in H1 as (diff1 & Hd1 & _ & _ & ->).
  apply detect_Ok in H2 as (diff2 & Hd2 & _ & _ & ->).
  rewrite Hd1 in Hd2. injection Hd2 as <-.
  by apply omap_box_sublist.
Qed.

Lemma X18_detections_antitone_in_min_box_size_witness :
  [] `sublist_of` [motion_box 10 20 10 20].
Proof.
  apply (@X18_detections_antitone_in_min_box_size reference_finder (9 # 10) 99 100
           {| luminance := np_zeros 31 31 |}
           {| luminance := blob_frame 31 10 20 255 |}).
  - unfold Qle; simpl; lia.
  - vm_compute. reflexivity.
  - vm_compute. reflexivity.
Defined.

(** ** Dimensions and pixel range along the detection pipeline *)

Lemma imap_row_lengths (f : nat -> list Z -> list Z) (a : GrayFrame) :
  (forall i row, length (f i row) = length row) ->
  length <$> imap f a = length <$> a.
Proof.
  revert f. induction a as [|row a IH]; intros f Hf; [reflexivity|].
  rewrite imap_cons. simpl. rewrite Hf. f_equal. apply IH. intros i r. apply Hf.
Qed.

Lemma morph_row_lengths op unit src kernel :
  length <$> morph op unit src kernel = length <$> src.
Proof.
  unfold morph. apply imap_row_lengths. intros i row. apply length_imap.
Qed.

Lemma threshold_mask_row_lengths k active diff :
  length <$> threshold_mask k active diff = length <$> diff.
Proof.
  rewrite threshold_mask_pixelwise. rewrite <- list_fmap_compose.
  apply list_fmap_ext. intros i row _. simpl. apply length_map.
Qed.

Lemma denoise_row_lengths k diff : length <$> denoise k diff = length <$> diff.
Proof.
  unfold denoise, erode, dilate.
  by rewrite !morph_row_lengths, threshold_mask_row_lengths.
Qed.

Lemma neighbourhood_uint8 a offs y x :
  uint8_frame a -> Forall (fun v => 0 <= v <= 255) (neighbourhood a offs y x).
Proof.
  intros Ha. apply Forall_forall. intros v Hv.
  unfold neighbourhood in Hv. apply list_elem_of_omap in Hv as (d & _ & Hd).
  unfold pixel_at in Hd. destruct (_ && _); [|done].
  destruct (a !! Z.to_nat (y + d.1)) as [row|] eqn:Hrow; [|done].
  pose proof (proj1 (Forall_lookup _ a) Ha _ _ Hrow) as Hr.
  exact (proj1 (Forall_lookup _ row) Hr _ _ Hd).
Qed.

Lemma morph_uint8 op unit src kernel :
  0 <= unit <= 255 ->
  (forall u v, 0 <= u <= 255 -> 0 <= v <= 255 -> 0 <= op u v <= 255) ->
  uint8_frame src -> uint8_frame (morph op unit src kernel).
Proof.
  intros Hunit Hop Hsrc. unfold uint8_frame, morph.
  apply Forall_lookup. intros y row' Hy.
  apply list_lookup_imap_Some in Hy as (row & Hrow & ->).
  apply Forall_lookup. intros x v' Hx.
  apply list_lookup_imap_Some in Hx as (v & Hv & ->).
  pose proof (neighbourhood_uint8 src (kernel_offsets kernel)
                (Z.of_nat y) (Z.of_nat x) Hsrc) as Hn.
  induction Hn as [|u l Hu _ IH]; simpl; [exact Hunit | by apply Hop].
Qed.

Lemma threshold_mask_uint8 k diff :
  uint8_frame diff -> uint8_frame (threshold_mask k 255 diff).
Proof.
  intros Hd. rewrite threshold_mask_pixelwise. unfold uint8_frame in *.
  rewrite Forall_map. eapply Forall_impl; [exact Hd|]. intros row Hrow.
  rewrite Forall_map. eapply Forall_impl; [exact Hrow|]. intros d Hr. simpl in *.
  unfold threshold_pixel.
  destruct (Z.ltb_spec d k).
  - destruct (Z.ltb_spec k 0); lia.
  - destruct (Z.ltb_spec k d); lia.
Qed.

(** X19.  The threshold and the four morphological passes keep the
    dimensions of the difference image, row by row, and turn an 8-bit image
    into an 8-bit image, for every threshold. *)
Theorem X19_denoise_keeps_dimensions_and_range (k : Z) (diff : GrayFrame) :
  length <$> denoise k diff = length <$> diff
  /\ (uint8_frame diff -> uint8_frame (denoise k diff)).
Proof.
  split; [apply denoise_row_lengths|].
  intros Hd. unfold denoise, erode, dilate.
  repeat (apply morph_uint8; [lia | intros; lia |]).
  by apply threshold_mask_uint8.
Qed.

Lemma X19_denoise_keeps_dimensions_and_range_witness :
  uint8_frame (denoise 25 [[31; 25; 0]; [200; 255; 7]]).
Proof.
  apply (proj2 (X19_denoise_keeps_dimensions_and_range 25
                  [[31; 25; 0]; [200; 255; 7]])).
  vm_compute. repeat constructor; discriminate.
Defined.

Lemma fits_row_lengths h w (a b : GrayFrame) :
  length <$> a = length <$> b -> fits h w b -> fits h w a.
Proof.
  intros Hab [Hh Hw]. split.
  - rewrite <- (length_fmap length a), Hab, length_fmap. exact Hh.
  - assert (Forall (fun n => (n <= w)%nat) (length <$> b)) as Hb
      by (by apply Forall_fmap).
    rewrite <- Hab in Hb. by apply Forall_fmap in Hb.
Qed.

Lemma difference_fits_frame src1 src2 diff :
  rectangular src2 -> absdiff src1 src2 = Ok diff ->
  fits (height src2) (width src2) diff.
Proof.
  intros Hr Hd. apply absdiff_Ok in Hd as [_ ->]. split.
  - rewrite length_zip_with. unfold height. lia.
  - apply zip_rows_width. exact Hr.
Qed.

Lemma pixel_at_fits h w a y x v :
  fits h w a -> pixel_at a y x = Some v ->
  0 <= y < Z.of_nat h /\ 0 <= x < Z.of_nat w.
Proof.
  intros [Hh Hw]. unfold pixel_at.
  destruct (Z.leb_spec 0 y); [|done]. destruct (Z.leb_spec 0 x); [|done]. simpl.
  destruct (a !! Z.to_nat y) as [row|] eqn:Hrow; [|done]. intros Hv.
  pose proof (lookup_lt_Some _ _ _ Hrow). pose proof (lookup_lt_Some _ _ _ Hv).
  pose proof (proj1 (Forall_lookup _ a) Hw _ _ Hrow) as Hlen. simpl in Hlen.
  lia.
Qed.

Lemma foldl_min_in l x : In (foldl Z.min x l) (x :: l).
Proof.
  revert x. induction l as [|y l IH]; intros x; simpl; [by left|].
  destruct (IH (Z.min x y)) as [H|H]; [|by right; right].
  rewrite <- H. destruct (Z.min_spec x y) as [[_ ->]|[_ ->]]; [by left | by right; left].
Qed.

Lemma foldl_max_in l x : In (foldl Z.max x l) (x :: l).
Proof.
  revert x. induction l as [|y l IH]; intros x; simpl; [by left|].
  destruct (IH (Z.max x y)) as [H|H]; [|by right; right].
  rewrite <- H. destruct (Z.max_spec x y) as [[_ ->]|[_ ->]]; [by right; left | by left].
Qed.

Lemma py_min_in l lo : py_min l = Ok lo -> In lo l.
Proof. destruct l as [|x l]; [done|]. intros [= <-]. apply foldl_min_in. Qed.

Lemma py_max_in l hi : py_max l = Ok hi -> In hi l.
Proof. destruct l as [|x l]; [done|]. intros [= <-]. apply foldl_max_in. Qed.

(** The extremal coordinates are coordinates of points of the contour. *)
Lemma bounding_box_attained c xmin xmax ymin ymax :
  bounding_box c = Ok (xmin, xmax, ymin, ymax) ->
  (exists y, In (xmin, y) c) /\ (exists y, In (xmax, y) c)
  /\ (exists x, In (x, ymin) c) /\ (exists x, In (x, ymax) c).
Proof.
  unfold bounding_box.
  destruct (py_min (map fst c)) as [a|] eqn:E1; [|done]; simpl.
  destruct (py_max (map fst c)) as [b|] eqn:E2; [|done]; simpl.
  destruct (py_min (map snd c)) as [a'|] eqn:E3; [|done]; simpl.
  destruct (py_max (map snd c)) as [b'|] eqn:E4; [|done]; simpl.
  intros [= <- <- <- <-].
  apply py_min_in, in_map_iff in E1 as ([x1 y1] & <- & H1).
  apply py_max_in, in_map_iff in E2 as ([x2 y2] & <- & H2).
  apply py_min_in, in_map_iff in E3 as ([x3 y3] & <- & H3).
  apply py_max_in, in_map_iff in E4 as ([x4 y4] & <- & H4).
  simpl. eauto 10.
Qed.

(** X20.  Every detection is labelled "motion" with confidence 0.5, and
    its box lies inside the frame: for a rectangular first frame of width
    [w] and height [h], [0 <= x_min <= x_max < w] and
    [0 <= y_min <= y_max < h]. *)
Theorem X20_detections_inside_frame `{CF : ContourFinder}
    (sens min_box : Q) (img1 img2 : Image) (dets : list Detection) :
  rectangular (luminance img1) ->
  detect sens min_box img1 img2 = Ok dets ->
  Forall (fun d =>
            det_class_name d = "motion" /\ det_confidence d = (1 # 2)%Q
            /\ (0 <= x_min d <= x_max d
                /\ x_max d < Z.of_nat (width (luminance img1)))
            /\ (0 <= y_min d <= y_max d
                /\ y_max d < Z.of_nat (height (luminance img1)))) dets.
Proof.
  intros Hr Hrun. apply detect_Ok in Hrun as (diff & Hd & _ & _ & ->).
  assert (fits (height (luminance img1)) (width (luminance img1))
            (denoise (threshold sens) diff)) as Hfits.
  { eapply fits_row_lengths; [apply denoise_row_lengths|].
    eapply difference_fits_frame; eauto. }
  apply Forall_forall. intros d Hd'.
  apply list_elem_of_omap in Hd' as (c & Hc & Hkept).
  apply list_elem_of_In in Hc.
  unfold box_if_kept in Hkept.
  destruct (bounding_box c) as [[[[xmin xmax] ymin] ymax]|e] eqn:Hbb; [|done].
  destruct (Qltb _ _); [|done]. injection Hkept as <-.
  destruct (bounding_box_ordered _ _ _ _ _ Hbb) as [Hx Hy].
  destruct (bounding_box_attained _ _ _ _ _ Hbb)
    as ((y1 & H1) & (y2 & H2) & (x3 & H3) & (x4 & H4)).
  destruct (contour_on_foreground _ _ _ _ _ _ Hc H1) as (v1 & Hv1 & _).
  destruct (contour_on_foreground _ _ _ _ _ _ Hc H2) as (v2 & Hv2 & _).
  destruct (contour_on_foreground _ _ _ _ _ _ Hc H3) as (v3 & Hv3 & _).
  destruct (contour_on_foreground _ _ _ _ _ _ Hc H4) as (v4 & Hv4 & _).
  pose proof (pixel_at_fits _ _ _ _ _ _ Hfits Hv1).
  pose proof (pixel_at_fits _ _ _ _ _ _ Hfits Hv2).
  pose proof (pixel_at_fits _ _ _ _ _ _ Hfits Hv3).
  pose proof (pixel_at_fits _ _ _ _ _ _ Hfits Hv4).
  simpl. repeat split; lia.
Qed.

Lemma X20_detections_inside_frame_witness :
  Forall (fun d =>
            det_class_name d = "motion" /\ det_confidence d = (1 # 2)%Q
            /\ (0 <= x_min d <= x_max d /\ x_max d < 31)
            /\ (0 <= y_min d <= y_max d /\ y_max d < 31))
    [motion_box 10 20 10 20].
Proof.
  apply (@X20_detections_inside_frame reference_finder (9 # 10) 99
           {| luminance := np_zeros 31 31 |}
           {| luminance := blob_frame 31 10 20 255 |}).
  - vm_compute. repeat constructor.
  - vm_compute. reflexivity.
Defined.
